(** * goft: querying the Gaia Observation Forecast Tool

    A shallow embedding of [src/goft.py] (Python 3) and the properties of
    its single operation, [forecast_position].

    Conventions of the embedding.
    - A Python [bytes] object and a Python [str] are both sequences of
      8-bit characters here ([String.string]); [bytes] is the name used
      for the former.  Every [str] the program computes from the response
      body is ASCII, because it goes through [str(r.content)].
    - In Python 3 [r.content] is a [bytes] object and [str] of a [bytes]
      object is its printed form: [b'...'] with escapes.  [str_of_bytes]
      follows CPython's [bytes.__repr__].
    - The network is an argument: a [service] answers each request, given
      the requests that came before it.  The program is a tree of requests
      ([io]); [run] plays it against a service and records the requests.
    - astropy (units, the table reader) is outside the repository; what the
      program uses of it is the interface [Astropy].
    - Of the requests library, the session's jar is modelled as it stores
      cookies (by domain, path and name) and as [session.cookies[name]]
      reads them; which cookies the jar sends with a request is the
      library's choice, the interface [Requests]. *)

From Stdlib Require Import String Ascii List ZArith Bool Lia PrimFloat.
Import ListNotations.
Local Open Scope string_scope.
Local Open Scope list_scope.

(** ** Python text primitives *)

Module Py.

Definition bytes := string.

Definition code (c : ascii) : nat := nat_of_ascii c.

(** The double quote character, code 34. *)
Definition dquote : ascii := ascii_of_nat 34.
(** The single quote character, code 39. *)
Definition squote : ascii := ascii_of_nat 39.
(** The backslash, code 92. *)
Definition backslash : ascii := ascii_of_nat 92.
Definition space : ascii := ascii_of_nat 32.

(** [c in s] for a single character. *)
Fixpoint mem_char (c : ascii) (s : string) : bool :=
  match s with
  | EmptyString => false
  | String d s' => Ascii.eqb c d || mem_char c s'
  end.

(** [str.startswith]. *)
Fixpoint startswith (p s : string) : bool :=
  match p, s with
  | EmptyString, _ => true
  | String _ _, EmptyString => false
  | String a p', String b s' => Ascii.eqb a b && startswith p' s'
  end.

(** [needle in hay] for strings. *)
Fixpoint contains (needle hay : string) : bool :=
  startswith needle hay ||
  match hay with
  | EmptyString => false
  | String _ hay' => contains needle hay'
  end.

(** Lower-case hexadecimal digit of a number below 16. *)
Definition hexdigit (n : nat) : ascii :=
  if Nat.ltb n 10 then ascii_of_nat (48 + n) else ascii_of_nat (87 + n).

(** The quote character [bytes.__repr__] chooses: a double quote when the
    bytes hold a single quote and no double quote, a single quote
    otherwise. *)
Definition repr_quote (b : bytes) : ascii :=
  if mem_char squote b && negb (mem_char dquote b) then dquote else squote.

(** How [bytes.__repr__] prints one byte, given the chosen quote. *)
Definition repr_byte (q c : ascii) : string :=
  if Ascii.eqb c q || Ascii.eqb c backslash then String backslash (String c EmptyString)
  else if Nat.eqb (code c) 9 then String backslash "t"
  else if Nat.eqb (code c) 10 then String backslash "n"
  else if Nat.eqb (code c) 13 then String backslash "r"
  else if Nat.ltb (code c) 32 || Nat.leb 127 (code c) then
    String backslash
      (String "x" (String (hexdigit (code c / 16))
                          (String (hexdigit (code c mod 16)) EmptyString)))
  else String c EmptyString.

Fixpoint repr_body (q : ascii) (b : bytes) : string :=
  match b with
  | EmptyString => EmptyString
  | String c b' => repr_byte q c ++ repr_body q b'
  end.

(** [str(b)] for a [bytes] object [b] (Python 3): the letter b, the quote,
    the escaped bytes, the quote. *)
Definition str_of_bytes (b : bytes) : string :=
  let q := repr_quote b in
  String "b" (String q (repr_body q b ++ String q EmptyString)).

(** [str.isprintable] on one character with code below 256. *)
Definition isprintable (c : ascii) : bool :=
  let n := code c in
  (Nat.leb 32 n && Nat.ltb n 127) || (Nat.leb 161 n && negb (Nat.eqb n 173)).

(** How [str.__repr__] prints one character, given the chosen quote. *)
Definition repr_char (q c : ascii) : string :=
  if Ascii.eqb c q || Ascii.eqb c backslash then String backslash (String c EmptyString)
  else if Nat.eqb (code c) 9 then String backslash "t"
  else if Nat.eqb (code c) 10 then String backslash "n"
  else if Nat.eqb (code c) 13 then String backslash "r"
  else if isprintable c then String c EmptyString
  else
    String backslash
      (String "x" (String (hexdigit (code c / 16))
                          (String (hexdigit (code c mod 16)) EmptyString))).

Fixpoint repr_chars (q : ascii) (s : string) : string :=
  match s with
  | EmptyString => EmptyString
  | String c s' => repr_char q c ++ repr_chars q s'
  end.

(** [repr(s)] for a [str] (the [!r] of a format): the quote, chosen as for
    bytes, the escaped characters, the quote. *)
Definition repr (s : string) : string :=
  let q := repr_quote s in
  String q (repr_chars q s ++ String q EmptyString).

(** [str.isspace] on one character with code below 256. *)
Definition isspace (c : ascii) : bool :=
  let n := code c in
  (Nat.leb 9 n && Nat.leb n 13) || (Nat.leb 28 n && Nat.leb n 32)
  || Nat.eqb n 133 || Nat.eqb n 160.

(** [bytes.isspace] on one byte: space, tab, newline, return, vertical tab
    and form feed. *)
Definition isspace_byte (c : ascii) : bool :=
  let n := code c in
  (Nat.leb 9 n && Nat.leb n 13) || Nat.eqb n 32.

(** Splitting on runs of separator characters, empty strings dropped:
    [s.split()] is [split_by isspace s]. *)
Fixpoint split_by (sep : ascii -> bool) (s : string) : list string :=
  match s with
  | EmptyString => []
  | String c s' =>
      if sep c then split_by sep s'
      else match s' with
           | EmptyString => [String c EmptyString]
           | String c' _ =>
               if sep c' then String c EmptyString :: split_by sep s'
               else match split_by sep s' with
                    | t :: ts => String c t :: ts
                    | [] => [String c EmptyString]
                    end
           end
  end.

Definition split (s : string) : list string := split_by isspace s.

(** [s.split(sep)] for a one-character separator: never empty. *)
Fixpoint split_on (sep : ascii) (s : string) : list string :=
  match s with
  | EmptyString => [EmptyString]
  | String c s' =>
      if Ascii.eqb c sep then EmptyString :: split_on sep s'
      else match split_on sep s' with
           | t :: ts => String c t :: ts
           | [] => [String c EmptyString]
           end
  end.

End Py.

(** ** Exceptions *)

(** The exceptions the call can end with.  [RequestException] stands for
    whatever the transport raises when no response arrives. *)
Inductive exn : Type :=
| UnitsError
| UnitConversionError
| RequestException (msg : string)
| HTTPError (status : Z)
| AssertionError (msg : string)
| IndexError
| KeyError (msg : string)
| CookieConflictError (msg : string)
| TableReadError.

(** The error taxonomy of the specification (its section 7), read onto the
    exceptions of the code. *)
Inductive error_class : Type :=
| InvalidInput
| RemoteServiceError
| ParseError
| Unclassified.

Definition classify (e : exn) : error_class :=
  match e with
  | UnitsError | UnitConversionError => InvalidInput
  | HTTPError _ | AssertionError _ => RemoteServiceError
  | IndexError | TableReadError => ParseError
  | RequestException _ | KeyError _ | CookieConflictError _ => Unclassified
  end.

(** [l[i]] on a Python list. *)
Definition py_index {A : Type} (l : list A) (i : nat) : exn + A :=
  match nth_error l i with
  | Some a => inr a
  | None => inl IndexError
  end.

(** ** The requests library, as far as the program uses it *)

Inductive method : Type := GET | POST.

(** The values the form holds: an [int], a [str] or a [float]. *)
Inductive pyval : Type :=
| PInt (z : Z)
| PStr (s : string)
| PFloat (f : float).

(** Python dicts keep insertion order; they are association lists. *)
Definition dict (V : Type) : Type := list (string * V).

Record request : Type := mkRequest {
  rq_method : method;
  rq_url : string;
  rq_params : dict string;
  rq_data : dict pyval;
  rq_headers : dict string;
  rq_files : dict string;
  rq_cookies : dict string
}.

(** A cookie as the jar holds it: its name and value, and the domain and
    path the jar keys it by.  Cookies here have a value (a [Set-Cookie]
    header with a name alone gives one without). *)
Record Cookie : Type := mkCookie {
  c_name : string;
  c_value : string;
  c_domain : string;
  c_path : string
}.

(** A response: its status, its body, and the cookies that
    [extract_cookies] sets in the jar for it, in the order of its
    [Set-Cookie] headers.  (A header with an expiry date in the past makes
    the jar drop a cookie instead; the responses here have none.) *)
Record response : Type := mkResponse {
  status_code : Z;
  content : Py.bytes;
  received : list Cookie
}.

(** The names and values of the cookies of a response. *)
Definition set_cookies (r : response) : dict string :=
  map (fun c => (c_name c, c_value c)) (received r).

(** [Response.ok]: [raise_for_status] does not raise, which it does for
    the status codes from 400 to 599. *)
Definition ok (r : response) : bool :=
  negb (Z.leb 400 (status_code r) && Z.ltb (status_code r) 600).

Definition raise_for_status (r : response) : exn + unit :=
  if Z.leb 400 (status_code r) && Z.ltb (status_code r) 600
  then inl (HTTPError (status_code r))
  else inr tt.

Fixpoint dict_get {V : Type} (k : string) (d : dict V) : option V :=
  match d with
  | [] => None
  | (k', v) :: d' => if String.eqb k k' then Some v else dict_get k d'
  end.

(** The jar holds one cookie for a domain, a path and a name. *)
Definition same_key (a b : Cookie) : bool :=
  String.eqb (c_domain a) (c_domain b) && String.eqb (c_path a) (c_path b)
  && String.eqb (c_name a) (c_name b).

(** [jar.set_cookie(c)]: [c] takes the place of the cookie of its key, or
    is added. *)
Fixpoint jar_set (c : Cookie) (jar : list Cookie) : list Cookie :=
  match jar with
  | [] => [c]
  | c' :: jar' => if same_key c c' then c :: jar' else c' :: jar_set c jar'
  end.

(** A session is its cookie jar. *)
Record Session : Type := mkSession { cookies : list Cookie }.

Definition new_session : Session := mkSession [].

(** The cookies of a response are stored in the jar, in order. *)
Definition store_cookies (s : Session) (r : response) : Session :=
  mkSession (fold_left (fun jar c => jar_set c jar) (received r) (cookies s)).

(** The loop of [RequestsCookieJar._find_no_duplicates(name)]: the value
    of the cookie of that name met so far; a second one is a conflict. *)
Fixpoint find_no_duplicates (name : string) (jar : list Cookie)
    (toReturn : option string) : exn + option string :=
  match jar with
  | [] => inr toReturn
  | c :: jar' =>
      if String.eqb (c_name c) name then
        match toReturn with
        | Some _ =>
            inl (CookieConflictError
                   ("There are multiple cookies with name, " ++ Py.repr name))
        | None => find_no_duplicates name jar' (Some (c_value c))
        end
      else find_no_duplicates name jar' toReturn
  end.

(** [session.cookies[name]]: the value of the one cookie of that name, if
    it is not empty; [KeyError] when there is none or its value is empty,
    [CookieConflictError] when there are two. *)
Definition cookie (s : Session) (name : string) : exn + string :=
  match find_no_duplicates name (cookies s) None with
  | inl e => inl e
  | inr (Some (String c v)) => inr (String c v)
  | inr _ =>
      inl (KeyError ("name=" ++ Py.repr name ++ ", domain=None, path=None"))
  end.

(** The cookies of a jar that have a name. *)
Definition named (name : string) (jar : list Cookie) : list Cookie :=
  filter (fun c => String.eqb (c_name c) name) jar.

(** Which cookies of the jar go with a request to a URL, as the [Cookie]
    header has them: the choice of the library (domain, path, expiry). *)
Class Requests : Type := {
  get_cookie_header : list Cookie -> string -> dict string
}.

(** ** Programs that talk to the network *)

Inductive io (A : Type) : Type :=
| Ret (a : A)
| Raise (e : exn)
| Call (rq : request) (k : response -> io A).

Arguments Ret {A} a.
Arguments Raise {A} e.
Arguments Call {A} rq k.

Fixpoint bind {A B : Type} (p : io A) (f : A -> io B) : io B :=
  match p with
  | Ret a => f a
  | Raise e => Raise e
  | Call rq k => Call rq (fun r => bind (k r) f)
  end.

Definition lift {A : Type} (x : exn + A) : io A :=
  match x with
  | inl e => Raise e
  | inr a => Ret a
  end.

Notation "x <- p ;; q" := (bind p (fun x => q))
  (at level 61, p at next level, right associativity).
Notation "p ;;; q" := (bind p (fun _ => q))
  (at level 61, right associativity).

(** [session.get(url, params=...)]: the request carries the cookies of
    the jar that go to the URL, the response's cookies go into the jar. *)
Definition session_get `{Requests} (s : Session) (url : string)
    (params : dict string) : io (Session * response) :=
  Call (mkRequest GET url params [] [] [] (get_cookie_header (cookies s) url))
       (fun r => Ret (store_cookies s r, r)).

(** [session.post(url, data=..., headers=..., files=...)]. *)
Definition session_post `{Requests} (s : Session) (url : string)
    (data : dict pyval) (headers files : dict string)
  : io (Session * response) :=
  Call (mkRequest POST url [] data headers files
          (get_cookie_header (cookies s) url))
       (fun r => Ret (store_cookies s r, r)).

(** How requests encodes the body: multipart as soon as [files] is not
    empty, a url-encoded form when only [data] is there. *)
Inductive encoding : Type := NoBody | UrlEncoded | Multipart.

Definition body_encoding (rq : request) : encoding :=
  match rq_files rq, rq_data rq with
  | _ :: _, _ => Multipart
  | [], _ :: _ => UrlEncoded
  | [], [] => NoBody
  end.

(** A remote service answers a request, knowing the requests before it
    (oldest first), with a response or with a transport failure. *)
Definition service : Type := list request -> request -> exn + response.

(** Playing a program against a service, from the requests already made:
    the requests made in all, and how the program ended. *)
Fixpoint run {A : Type} (svc : service) (hist : list request) (p : io A)
  : list request * (exn + A) :=
  match p with
  | Ret a => (hist, inr a)
  | Raise e => (hist, inl e)
  | Call rq k =>
      match svc hist rq with
      | inl e => (hist ++ [rq], inl e)
      | inr r => run svc (hist ++ [rq]) (k r)
      end
  end.

(** ** astropy, as far as the program uses it *)

(** A quantity: a [float] with its unit. *)
Record Quantity (Unit : Type) : Type := mkQuantity {
  value : float;
  unit : Unit
}.

Arguments mkQuantity {Unit} value unit.
Arguments value {Unit} q.
Arguments unit {Unit} q.

(** [Unit] stands for [astropy.units.Unit], [Table] for
    [astropy.table.Table]. *)
Class Astropy (Unit Table : Type) : Type := {
  (** [u.deg] *)
  deg : Unit;
  (** [unit.is_equivalent(other)] *)
  is_equivalent : Unit -> Unit -> bool;
  (** the value of a quantity of the first unit in the second, for
      equivalent units *)
  to_value : Unit -> Unit -> float -> float;
  (** [Table.read(BytesIO(b), format="csv")] *)
  Table_read_csv : Py.bytes -> option Table
}.

(** What the call returns: the table, or with [full_output] the triple. *)
Inductive output (Table : Type) : Type :=
| Forecast (forecast : Table)
| Full (forecast : Table) (identifier : string) (session : Session).

Arguments Forecast {Table} forecast.
Arguments Full {Table} forecast identifier session.

Section Goft.

Context {Unit Table : Type} {astropy : Astropy Unit Table}.
Context {requests : Requests}.

(** [q.to(target)] *)
Definition Quantity_to (q : Quantity Unit) (target : Unit)
  : exn + Quantity Unit :=
  if is_equivalent (unit q) target
  then inr (mkQuantity (to_value (unit q) target (value q)) target)
  else inl UnitConversionError.

(** What [@u.quantity_input(ra=u.deg, dec=u.deg)] checks of one argument. *)
Definition check_unit (q : Quantity Unit) (target : Unit)
  : exn + Datatypes.unit :=
  if is_equivalent (unit q) target then inr tt else inl UnitsError.

Definition Table_read (b : Py.bytes) : exn + Table :=
  match Table_read_csv b with
  | Some t => inr t
  | None => inl TableReadError
  end.

(** ** goft.py *)

Definition _host : string := "https://gaia.esac.esa.int".

Definition _default_observing_period_from : string := "2014-09-26T00:00:00".
Definition _default_observing_period_to : string := "2019-06-07T00:00:00".

(** Line 89: [str(r.content).split()[3].split("<")[0]]. *)
Definition parse_result_id (body : Py.bytes) : exn + string :=
  match py_index (Py.split (Py.str_of_bytes body)) 3 with
  | inl e => inl e
  | inr tok => py_index (Py.split_on "<" tok) 0
  end.

(** The body of [forecast_position], after the decorator. *)
Definition forecast_position_body (ra dec : Quantity Unit)
    (observation_period_from observation_period_to : option string)
    (full_output : bool) : io (output Table) :=
  let observation_period_from :=
    match observation_period_from with
    | None => _default_observing_period_from
    | Some s => s
    end in
  let observation_period_to :=
    match observation_period_to with
    | None => _default_observing_period_to
    | Some s => s
    end in
  let session := new_session in
  sr <- session_get session (_host ++ "/gost/") [] ;;
  let session := fst sr in
  ra_deg <- lift (Quantity_to ra deg) ;;
  dec_deg <- lift (Quantity_to dec deg) ;;
  let data :=
    [ ("serviceCode", PInt 1);
      ("srcname", PStr EmptyString);
      ("inputmode", PStr "single");
      ("srcra", PFloat (value ra_deg));
      ("srcdec", PFloat (value dec_deg));
      ("from", PStr observation_period_from);
      ("to", PStr observation_period_to) ] in
  let files := [ ("csvfilename", EmptyString) ] in
  let headers := [ ("cache", "false"); ("processData", "false") ] in
  sr <- session_post session (_host ++ "/gost/GostServlet") data headers files ;;
  let session := fst sr in
  let r := snd sr in
  (if ok r then Ret tt else lift (raise_for_status r)) ;;;
  (if Py.contains "error" (Py.str_of_bytes (content r))
   then Raise (AssertionError
                 ("An error occurred: " ++ Py.str_of_bytes (content r)))
   else Ret tt) ;;;
  result_id <- lift (parse_result_id (content r)) ;;
  sid <- lift (cookie session "JSESSIONID") ;;
  let identifier := (sid ++ "/" ++ result_id)%string in
  let fmt := "csv" in
  sr <- session_get session (_host ++ "/gost/export.jsp")
          [ ("id", identifier); ("format", fmt) ] ;;
  let session := fst sr in
  let result := snd sr in
  forecast <- lift (Table_read (content result)) ;;
  if full_output then Ret (Full forecast identifier session)
  else Ret (Forecast forecast).

(** [forecast_position]: the decorator checks the units of [ra], then of
    [dec], then the body runs. *)
Definition forecast_position (ra dec : Quantity Unit)
    (observation_period_from observation_period_to : option string)
    (full_output : bool) : io (output Table) :=
  lift (check_unit ra deg) ;;;
  lift (check_unit dec deg) ;;;
  forecast_position_body ra dec observation_period_from
    observation_period_to full_output.

End Goft.

(** ** The identifier as the specification words it *)

(** The fourth whitespace-delimited token of the raw body, cut at the
    first [<]; nothing when the body has no fourth token.  This follows
    the specification's sentence, on the bytes of the body; the code's
    own reading is [parse_result_id]. *)
Definition spec_result_id (body : Py.bytes) : option string :=
  match nth_error (Py.split_by Py.isspace_byte body) 3 with
  | Some tok => nth_error (Py.split_on "<" tok) 0
  | None => None
  end.

(** Printable ASCII other than the single quote and the backslash: the
    bytes that [str] of a [bytes] object leaves as they are, between
    single quotes. *)
Definition plain_byte (c : ascii) : bool :=
  Nat.leb 32 (Py.code c) && Nat.ltb (Py.code c) 127
  && negb (Ascii.eqb c Py.squote) && negb (Ascii.eqb c Py.backslash).

Fixpoint plain (b : Py.bytes) : bool :=
  match b with
  | EmptyString => true
  | String c b' => plain_byte c && plain b'
  end.

Definition is_space (c : ascii) : bool := Ascii.eqb c Py.space.

(** Printable ASCII: the codes from 32 to 126. *)
Definition printable (c : ascii) : bool :=
  Nat.leb 32 (Py.code c) && Nat.ltb (Py.code c) 127.

(** The last character of a string passes a test (false on the empty
    string). *)
Fixpoint ends_with (p : ascii -> bool) (s : string) : bool :=
  match s with
  | EmptyString => false
  | String c EmptyString => p c
  | String _ s' => ends_with p s'
  end.

Definition ends_with_space (s : string) : bool := ends_with is_space s.

Definition starts_with_space (s : string) : bool :=
  match s with
  | EmptyString => false
  | String c _ => is_space c
  end.

Definition nonempty (s : string) : bool :=
  match s with
  | EmptyString => false
  | String _ _ => true
  end.

(** The printable bytes that [bytes.__repr__] escapes when the quote is
    [q]: the quote and the backslash. *)
Definition escaped (q c : ascii) : bool :=
  Ascii.eqb c q || Ascii.eqb c Py.backslash.

(** Every character of a string passes a test. *)
Fixpoint all_chars (p : ascii -> bool) (s : string) : bool :=
  match s with
  | EmptyString => true
  | String c s' => p c && all_chars p s'
  end.

(** ** A small astropy to run the program on *)

Module Demo.

(** A few units: four of angle, one of length, one of time. *)
Inductive unit_name : Type :=
| u_deg | u_arcmin | u_hourangle | u_rad | u_m | u_s.

Inductive physical_type : Type := angle | length | time.

Definition physical (u : unit_name) : physical_type :=
  match u with
  | u_deg | u_arcmin | u_hourangle | u_rad => angle
  | u_m => length
  | u_s => time
  end.

Definition same_type (a b : physical_type) : bool :=
  match a, b with
  | angle, angle | length, length | time, time => true
  | _, _ => false
  end.

(** One unit in the reference unit of its physical type (radian, metre,
    second); the degree is pi / 180. *)
Definition scale (u : unit_name) : float :=
  match u with
  | u_deg => 0x1.1df46a2529d39p-6
  | u_arcmin => 0x1.1df46a2529d39p-6 / 60
  | u_hourangle => 15 * 0x1.1df46a2529d39p-6
  | u_rad => 1
  | u_m => 1
  | u_s => 1
  end%float.

Definition convert (a b : unit_name) (x : float) : float :=
  (x * (scale a / scale b))%float.

(** A cell of a table read from text: an integer when the text is one
    that fits 64 bits, the text otherwise. *)
Inductive cell : Type :=
| CInt (z : Z)
| CStr (s : string).

Record table : Type := mkTable {
  colnames : list string;
  rows : list (list cell)
}.

Definition digit (c : ascii) : option Z :=
  let n := Py.code c in
  if Nat.leb 48 n && Nat.leb n 57 then Some (Z.of_nat (n - 48)) else None.

Fixpoint digits (s : string) (acc : Z) : option Z :=
  match s with
  | EmptyString => Some acc
  | String c s' =>
      match digit c with
      | Some d => digits s' (10 * acc + d)
      | None => None
      end
  end.

(** Decimal integers of 64 bits. *)
Definition read_int (s : string) : option Z :=
  let z :=
    match s with
    | EmptyString => None
    | String "-" (String c s') => option_map Z.opp (digits (String c s') 0)
    | _ => digits s 0
    end in
  match z with
  | Some n =>
      if Z.leb (- 2 ^ 63) n && Z.ltb n (2 ^ 63) then Some n else None
  | None => None
  end.

Definition read_cell (s : string) : cell :=
  match read_int s with
  | Some z => CInt z
  | None => CStr s
  end.

(** A reader for the examples, of comma-separated text without quoting:
    the first line names the columns, every other line is a row with as
    many cells; empty lines are skipped, and no line at all is the empty
    table. *)
Definition read_csv (b : Py.bytes) : option table :=
  match filter nonempty (Py.split_on (ascii_of_nat 10) b) with
  | [] => Some (mkTable [] [])
  | header :: lines =>
      let names := Py.split_on "," header in
      let data := map (fun l => map read_cell (Py.split_on "," l)) lines in
      if forallb (fun row => Nat.eqb (List.length row) (List.length names)) data
      then Some (mkTable names data)
      else None
  end.

(** A stand-in for astropy on these units and on such tables, to run the
    examples on. *)
Definition astropy : Astropy unit_name table := {|
  deg := u_deg;
  is_equivalent := fun a b => same_type (physical a) (physical b);
  to_value := convert;
  Table_read_csv := read_csv
|}.

(** A stand-in for the library's choice of the cookies to send: those
    whose domain and path begin the URL. *)
Definition requests : Requests := {|
  get_cookie_header := fun jar url =>
    map (fun c => (c_name c, c_value c))
        (filter (fun c =>
                   Py.startswith ("https://" ++ c_domain c ++ c_path c) url)
                jar)
|}.

(** The session cookie as the service sets it. *)
Definition session_cookie (sid : string) : Cookie :=
  mkCookie "JSESSIONID" sid "gaia.esac.esa.int" "/gost".

(** A mocked service: the landing page sets the session cookie, the
    servlet answers with [body], the export with [csv]; all with status
    200. *)
Definition mock (sid : string) (body csv : Py.bytes) : service :=
  fun _ rq =>
    match rq_method rq with
    | POST => inr (mkResponse 200 body [])
    | GET =>
        if String.eqb (rq_url rq) "https://gaia.esac.esa.int/gost/export.jsp"
        then inr (mkResponse 200 csv [])
        else inr (mkResponse 200 EmptyString [session_cookie sid])
    end.

(** The same service answering the servlet with another status. *)
Definition mock_status (status : Z) (sid : string) (body csv : Py.bytes)
  : service :=
  fun h rq =>
    match rq_method rq with
    | POST => inr (mkResponse status body [])
    | GET => mock sid body csv h rq
    end.

Definition newline : string := String (ascii_of_nat 10) EmptyString.

Definition degrees (x : float) : Quantity unit_name := mkQuantity x u_deg.

(** The call of the script's main block: 34 and -13 degrees, the default
    period. *)
Definition call (full_output : bool) : io (output table) :=
  forecast_position (astropy := astropy) (requests := requests)
    (degrees 34) (degrees (-13)) None None full_output.

(** The bodies of the mocked scenario. *)
Definition body : Py.bytes := "xxx xxx xxx 12345<br>".
Definition csv : Py.bytes := ("a,b" ++ newline ++ "1,2" ++ newline)%string.

(** The same body with a newline between its first two tokens, and with
    nothing after the identifier. *)
Definition body_lines : Py.bytes :=
  ("xxx" ++ newline ++ "xxx xxx 12345<br>")%string.
Definition body_bare : Py.bytes := "xxx xxx xxx 12345".

(** A body of two tokens, with a newline between them. *)
Definition body_short : Py.bytes := ("xxx" ++ newline ++ "12345<br>")%string.

(** The form the script's call submits once the mocked landing page has
    set the cookie to [S]. *)
Definition submitted : request :=
  mkRequest POST "https://gaia.esac.esa.int/gost/GostServlet" []
    [ ("serviceCode", PInt 1); ("srcname", PStr EmptyString);
      ("inputmode", PStr "single"); ("srcra", PFloat 34);
      ("srcdec", PFloat (-13));
      ("from", PStr "2014-09-26T00:00:00");
      ("to", PStr "2019-06-07T00:00:00") ]
    [ ("cache", "false"); ("processData", "false") ]
    [ ("csvfilename", EmptyString) ]
    [ ("JSESSIONID", "S") ].

End Demo.

(** A scripted service: the requests of a call get the answers of the
    script in turn, and a transport failure once the script is over. *)
Definition scripted (answers : list (exn + response)) : service :=
  fun h _ =>
    nth (List.length h) answers (inl (RequestException "no answer")).

Module Script.

(** Answers for scripts: the landing page setting the cookie to [S], the
    same with status 500, one that sets nothing, one that sets the cookie
    to the empty value, one that sets two cookies of that name for two
    paths; the servlet's answer; the export's with status 404, and one
    that sets the cookie anew, to [T]. *)
Definition landing : response :=
  mkResponse 200 EmptyString [Demo.session_cookie "S"].
Definition landing_500 : response :=
  mkResponse 500 "Internal Server Error" [Demo.session_cookie "S"].
Definition bare : response := mkResponse 200 EmptyString [].
Definition landing_empty : response :=
  mkResponse 200 EmptyString [Demo.session_cookie EmptyString].
Definition landing_twice : response :=
  mkResponse 200 EmptyString
    [ mkCookie "JSESSIONID" "A" "gaia.esac.esa.int" "/gost";
      mkCookie "JSESSIONID" "B" "gaia.esac.esa.int" "/" ].
Definition servlet : response := mkResponse 200 Demo.body [].
Definition export_404 : response := mkResponse 404 Demo.csv [].
Definition export_renewing : response :=
  mkResponse 200 Demo.csv [Demo.session_cookie "T"].

(** The service whose export sets the cookie anew. *)
Definition renewing : service :=
  scripted [inr landing; inr servlet; inr export_renewing].

(** The submission of the script's call with a period given, and the
    export it requests against the mocked service. *)
Definition submitted : request :=
  mkRequest POST "https://gaia.esac.esa.int/gost/GostServlet" []
    [ ("serviceCode", PInt 1); ("srcname", PStr EmptyString);
      ("inputmode", PStr "single"); ("srcra", PFloat 34);
      ("srcdec", PFloat (-13));
      ("from", PStr "soon");
      ("to", PStr "later") ]
    [ ("cache", "false"); ("processData", "false") ]
    [ ("csvfilename", EmptyString) ]
    [ ("JSESSIONID", "S") ].

Definition exported : request :=
  mkRequest GET "https://gaia.esac.esa.int/gost/export.jsp"
    [ ("id", "S/12345"); ("format", "csv") ] [] [] []
    [ ("JSESSIONID", "S") ].

End Script.

(** ** The requests of a call and the ways it can end *)

Section Requests.

Context {Unit Table : Type} {astropy : Astropy Unit Table}.
Context {requests : Requests}.

(** The warm-up request: the first of a fresh session, with an empty
    jar. *)
Definition warmup : request :=
  mkRequest GET "https://gaia.esac.esa.int/gost/" [] [] [] []
    (get_cookie_header [] "https://gaia.esac.esa.int/gost/").

Definition period (given : option string) (default : string) : string :=
  match given with
  | Some s => s
  | None => default
  end.

(** The forecast submission, from a session. *)
Definition submission (ra dec : Quantity Unit) (from to : option string)
    (s : Session) : request :=
  mkRequest POST "https://gaia.esac.esa.int/gost/GostServlet" []
    [ ("serviceCode", PInt 1);
      ("srcname", PStr EmptyString);
      ("inputmode", PStr "single");
      ("srcra", PFloat (to_value (unit ra) deg (value ra)));
      ("srcdec", PFloat (to_value (unit dec) deg (value dec)));
      ("from", PStr (period from _default_observing_period_from));
      ("to", PStr (period to _default_observing_period_to)) ]
    [ ("cache", "false"); ("processData", "false") ]
    [ ("csvfilename", EmptyString) ]
    (get_cookie_header (cookies s)
       "https://gaia.esac.esa.int/gost/GostServlet").

(** The export request for an identifier, from a session. *)
Definition export (identifier : string) (s : Session) : request :=
  mkRequest GET "https://gaia.esac.esa.int/gost/export.jsp"
    [ ("id", identifier); ("format", "csv") ] [] [] []
    (get_cookie_header (cookies s)
       "https://gaia.esac.esa.int/gost/export.jsp").

(** What the service answered to the [n]-th request of a run (counting
    from 0), if the run got that far. *)
Definition answer (svc : service) (tr : list request) (n : nat)
  : option (exn + response) :=
  match nth_error tr n with
  | Some rq => Some (svc (firstn n tr) rq)
  | None => None
  end.

(** The table a call ends with, whatever the shape of what it returns. *)
Definition table_of (res : exn + output Table) : exn + Table :=
  match res with
  | inl e => inl e
  | inr (Forecast t) => inr t
  | inr (Full t _ _) => inr t
  end.

Section Ends.

Variable svc : service.
Variables ra dec : Quantity Unit.
Variables from to : option string.
Variable full_output : bool.

(** How the call goes on once the submission is answered with [r], the
    session being [s] and the requests made so far [h]. *)
Inductive answered (s : Session) (r : response) (h : list request)
  : list request -> exn + output Table -> Prop :=
| answered_status :
    ok r = false ->
    answered s r h h (inl (HTTPError (status_code r)))
| answered_marker :
    ok r = true ->
    Py.contains "error" (Py.str_of_bytes (content r)) = true ->
    answered s r h h
      (inl (AssertionError
              ("An error occurred: " ++ Py.str_of_bytes (content r))))
| answered_no_id e :
    ok r = true ->
    Py.contains "error" (Py.str_of_bytes (content r)) = false ->
    parse_result_id (content r) = inl e ->
    answered s r h h (inl e)
| answered_no_cookie rid e :
    ok r = true ->
    Py.contains "error" (Py.str_of_bytes (content r)) = false ->
    parse_result_id (content r) = inr rid ->
    cookie s "JSESSIONID" = inl e ->
    answered s r h h (inl e)
| answered_no_export rid sid e :
    ok r = true ->
    Py.contains "error" (Py.str_of_bytes (content r)) = false ->
    parse_result_id (content r) = inr rid ->
    cookie s "JSESSIONID" = inr sid ->
    svc h (export (sid ++ "/" ++ rid) s) = inl e ->
    answered s r h (h ++ [export (sid ++ "/" ++ rid) s]) (inl e)
| answered_no_table rid sid r2 e :
    ok r = true ->
    Py.contains "error" (Py.str_of_bytes (content r)) = false ->
    parse_result_id (content r) = inr rid ->
    cookie s "JSESSIONID" = inr sid ->
    svc h (export (sid ++ "/" ++ rid) s) = inr r2 ->
    Table_read (content r2) = inl e ->
    answered s r h (h ++ [export (sid ++ "/" ++ rid) s]) (inl e)
| answered_table rid sid r2 t :
    ok r = true ->
    Py.contains "error" (Py.str_of_bytes (content r)) = false ->
    parse_result_id (content r) = inr rid ->
    cookie s "JSESSIONID" = inr sid ->
    svc h (export (sid ++ "/" ++ rid) s) = inr r2 ->
    Table_read (content r2) = inr t ->
    answered s r h (h ++ [export (sid ++ "/" ++ rid) s])
      (inr (if full_output
            then Full t (sid ++ "/" ++ rid) (store_cookies s r2)
            else Forecast t)).

(** The ways a call can end: the requests made and the result. *)
Inductive ends : list request -> exn + output Table -> Prop :=
| ends_ra :
    is_equivalent (unit ra) deg = false ->
    ends [] (inl UnitsError)
| ends_dec :
    is_equivalent (unit ra) deg = true ->
    is_equivalent (unit dec) deg = false ->
    ends [] (inl UnitsError)
| ends_warmup e :
    is_equivalent (unit ra) deg = true ->
    is_equivalent (unit dec) deg = true ->
    svc [] warmup = inl e ->
    ends [warmup] (inl e)
| ends_submission r0 e :
    is_equivalent (unit ra) deg = true ->
    is_equivalent (unit dec) deg = true ->
    svc [] warmup = inr r0 ->
    svc [warmup] (submission ra dec from to (store_cookies new_session r0))
      = inl e ->
    ends [warmup; submission ra dec from to (store_cookies new_session r0)]
         (inl e)
| ends_answered r0 r1 tr res :
    is_equivalent (unit ra) deg = true ->
    is_equivalent (unit dec) deg = true ->
    svc [] warmup = inr r0 ->
    svc [warmup] (submission ra dec from to (store_cookies new_session r0))
      = inr r1 ->
    answered (store_cookies (store_cookies new_session r0) r1) r1
      [warmup; submission ra dec from to (store_cookies new_session r0)]
      tr res ->
    ends tr res.

End Ends.

End Requests.

(** ** Examples *)

Example split_demo :
  Py.split (Py.str_of_bytes "xxx xxx xxx 12345<br>")
  = [String "b" (String Py.squote "xxx"); "xxx"; "xxx";
     ("12345<br>" ++ String Py.squote EmptyString)%string].
Proof. reflexivity. Qed.

Example read_cell_demo :
  Demo.read_cell "9223372036854775807" = Demo.CInt 9223372036854775807 /\
  Demo.read_cell "99999999999999999999" = Demo.CStr "99999999999999999999" /\
  Demo.read_csv EmptyString = Some (Demo.mkTable [] []).
Proof. repeat split. Qed.

Example convert_demo :
  Demo.convert Demo.u_hourangle Demo.u_deg 2 = 0x1.dffffffffffffp+4%float /\
  Demo.convert Demo.u_arcmin Demo.u_deg 90 = 1.5%float /\
  Demo.convert Demo.u_deg Demo.u_deg 34 = 34%float.
Proof. repeat split. Qed.

Example demo_run :
  run (Demo.mock "S" "xxx xxx xxx 12345<br>"
         ("a,b" ++ Demo.newline ++ "1,2" ++ Demo.newline)%string) []
      (Demo.call false)
  = ([ mkRequest GET "https://gaia.esac.esa.int/gost/" [] [] [] [] [];
       mkRequest POST "https://gaia.esac.esa.int/gost/GostServlet" []
         [ ("serviceCode", PInt 1); ("srcname", PStr EmptyString);
           ("inputmode", PStr "single"); ("srcra", PFloat 34);
           ("srcdec", PFloat (-13));
           ("from", PStr "2014-09-26T00:00:00");
           ("to", PStr "2019-06-07T00:00:00") ]
         [ ("cache", "false"); ("processData", "false") ]
         [ ("csvfilename", EmptyString) ]
         [ ("JSESSIONID", "S") ];
       mkRequest GET "https://gaia.esac.esa.int/gost/export.jsp"
         [ ("id", "S/12345"); ("format", "csv") ] [] [] []
         [ ("JSESSIONID", "S") ] ],
     inr (Forecast (Demo.mkTable ["a"; "b"] [[Demo.CInt 1; Demo.CInt 2]]))).
Proof. vm_compute. reflexivity. Qed.

(** ** Running programs *)

Section Running.

Context {A B : Type}.
Context {requests : Requests}.
Variable svc : service.
Variable h : list request.

Lemma run_lift_bind (x : exn + A) (f : A -> io B) :
  run svc h (bind (lift x) f) =
  match x with
  | inl e => (h, inl e)
  | inr a => run svc h (f a)
  end.
Proof. destruct x; reflexivity. Qed.

Lemma run_get_bind (s : Session) (url : string) (params : dict string)
    (f : Session * response -> io B) :
  let rq :=
    mkRequest GET url params [] [] [] (get_cookie_header (cookies s) url) in
  run svc h (bind (session_get s url params) f) =
  match svc h rq with
  | inl e => (h ++ [rq], inl e)
  | inr r => run svc (h ++ [rq]) (f (store_cookies s r, r))
  end.
Proof. reflexivity. Qed.

Lemma run_post_bind (s : Session) (url : string) (data : dict pyval)
    (headers files : dict string) (f : Session * response -> io B) :
  let rq :=
    mkRequest POST url [] data headers files
      (get_cookie_header (cookies s) url) in
  run svc h (bind (session_post s url data headers files) f) =
  match svc h rq with
  | inl e => (h ++ [rq], inl e)
  | inr r => run svc (h ++ [rq]) (f (store_cookies s r, r))
  end.
Proof. reflexivity. Qed.

Lemma run_if_bind (c : bool) (p q : io A) (f : A -> io B) :
  run svc h (bind (if c then p else q) f) =
  if c then run svc h (bind p f) else run svc h (bind q f).
Proof. destruct c; reflexivity. Qed.

Lemma run_ret_bind (a : A) (f : A -> io B) :
  run svc h (bind (Ret a) f) = run svc h (f a).
Proof. reflexivity. Qed.

Lemma run_raise_bind (e : exn) (f : A -> io B) :
  run svc h (bind (Raise e) f) = (h, inl e).
Proof. reflexivity. Qed.

Lemma run_if (c : bool) (p q : io A) :
  run svc h (if c then p else q) =
  if c then run svc h p else run svc h q.
Proof. destruct c; reflexivity. Qed.

Lemma run_ret (a : A) : run svc h (Ret a) = (h, inr a).
Proof. reflexivity. Qed.

End Running.

Lemma raise_for_status_not_ok (r : response) :
  ok r = false -> raise_for_status r = inl (HTTPError (status_code r)).
Proof.
  unfold ok, raise_for_status.
  destruct (Z.leb 400 (status_code r) && Z.ltb (status_code r) 600);
    [reflexivity | discriminate].
Qed.

(** One step of a run: the equation of the construct at the head of the
    program. *)
Ltac run_step :=
  first [ rewrite run_lift_bind | rewrite run_get_bind | rewrite run_post_bind
        | rewrite run_if_bind | rewrite run_ret_bind | rewrite run_raise_bind
        | rewrite run_if | rewrite run_ret ];
  cbv beta; cbn [fst snd app cookies new_session].

(** One branching of a run: on a unit check, a status, the marker, an
    answer of the service, the identifier, the cookie or the table. *)
Ltac run_case :=
  match goal with
  | |- context [if is_equivalent ?u ?v then _ else _] =>
      destruct (is_equivalent u v) eqn:?
  | |- context [if ok ?r then _ else _] =>
      let H := fresh "Hok" in
      destruct (ok r) eqn:H;
      [ | rewrite (raise_for_status_not_ok r H) ]
  | |- context [if Py.contains ?a ?b then _ else _] =>
      destruct (Py.contains a b) eqn:?
  | |- context [match ?s ?h ?rq with inl _ => _ | inr _ => _ end] =>
      destruct (s h rq) eqn:?
  | |- context [match parse_result_id ?b with inl _ => _ | inr _ => _ end] =>
      destruct (parse_result_id b) eqn:?
  | |- context [match cookie ?s ?n with inl _ => _ | inr _ => _ end] =>
      destruct (cookie s n) eqn:?
  | |- context [match Table_read ?b with inl _ => _ | inr _ => _ end] =>
      destruct (Table_read b) eqn:?
  end.

(** A call, run to each of its ends. *)
Ltac run_all :=
  unfold forecast_position, forecast_position_body, check_unit, Quantity_to;
  cbv zeta;
  repeat first [ run_step | run_case ].

(** ** Text lemmas *)

Lemma startswith_app (n s t : string) :
  Py.startswith n s = true -> Py.startswith n (s ++ t) = true.
Proof.
  revert s; induction n as [| a n IH]; intros [| c s]; cbn; try easy.
  intros H; apply andb_true_iff in H as [-> H]; cbn; auto.
Qed.

Lemma contains_app_l (n s t : string) :
  Py.contains n s = true -> Py.contains n (s ++ t) = true.
Proof.
  induction s as [| c s IH]; cbn [Py.contains String.append].
  - destruct n; cbn; [destruct t; reflexivity | discriminate].
  - intros H; apply orb_true_iff in H as [H | H].
    + apply (startswith_app _ _ t) in H. cbn [String.append] in H.
      rewrite H; reflexivity.
    + rewrite (IH H); apply orb_true_r.
Qed.

Lemma contains_cons (n : string) (c : ascii) (s : string) :
  Py.contains n s = true -> Py.contains n (String c s) = true.
Proof. intros H; cbn [Py.contains]; rewrite H; apply orb_true_r. Qed.

Lemma contains_app_r (n s t : string) :
  Py.contains n t = true -> Py.contains n (s ++ t) = true.
Proof.
  intros H; induction s as [| c s IH]; cbn [String.append]; auto.
  apply contains_cons; exact IH.
Qed.

(** A needle made of bytes that [bytes.__repr__] prints as they are
    survives the printing. *)
Lemma startswith_repr_body (q : ascii) (n : string) :
  all_chars (fun a => String.eqb (Py.repr_byte q a) (String a EmptyString)) n
  = true ->
  forall b, Py.startswith n b = true ->
  Py.startswith n (Py.repr_body q b) = true.
Proof.
  induction n as [| a n IH]; intros Hn [| c b]; cbn; try easy.
  cbn in Hn. apply andb_true_iff in Hn as [Ha Hn].
  intros H; apply andb_true_iff in H as [Hac H].
  apply Ascii.eqb_eq in Hac; subst c.
  apply String.eqb_eq in Ha; rewrite Ha; cbn.
  rewrite Ascii.eqb_refl; cbn; auto.
Qed.

Lemma contains_repr_body (q : ascii) (n : string) :
  all_chars (fun a => String.eqb (Py.repr_byte q a) (String a EmptyString)) n
  = true ->
  forall b, Py.contains n b = true ->
  Py.contains n (Py.repr_body q b) = true.
Proof.
  intros Hn; induction b as [| c b IH].
  - destruct n; cbn; [reflexivity | discriminate].
  - intros H. cbn [Py.contains] in H.
    apply orb_true_iff in H as [H | H].
    + apply (startswith_repr_body q n Hn) in H.
      destruct (Py.repr_body q (String c b)); cbn [Py.contains];
        rewrite H; reflexivity.
    + cbn [Py.repr_body]. apply contains_app_r; auto.
Qed.

(** An [error] in the body is an [error] in [str] of the body. *)
Lemma error_in_str_of_bytes (b : Py.bytes) :
  Py.contains "error" b = true ->
  Py.contains "error" (Py.str_of_bytes b) = true.
Proof.
  intros H. unfold Py.str_of_bytes.
  do 2 apply contains_cons. apply contains_app_l.
  apply contains_repr_body; [| exact H].
  unfold Py.repr_quote.
  destruct (Py.mem_char Py.squote b && negb (Py.mem_char Py.dquote b));
    reflexivity.
Qed.

Lemma repr_body_plain (b : Py.bytes) :
  plain b = true -> Py.repr_body Py.squote b = b.
Proof.
  induction b as [| c b IH]; cbn [plain Py.repr_body]; [reflexivity |].
  intros H; apply andb_true_iff in H as [Hc Hb].
  rewrite (IH Hb).
  replace (Py.repr_byte Py.squote c) with (String c EmptyString);
    [reflexivity |].
  revert Hc; clear.
  destruct c as [[] [] [] [] [] [] [] []]; cbv; congruence.
Qed.

Lemma mem_squote_plain (b : Py.bytes) :
  plain b = true -> Py.mem_char Py.squote b = false.
Proof.
  induction b as [| c b IH]; cbn [plain Py.mem_char]; [reflexivity |].
  intros H; apply andb_true_iff in H as [Hc Hb].
  rewrite (IH Hb), orb_false_r.
  unfold plain_byte in Hc.
  rewrite Ascii.eqb_sym.
  destruct (Ascii.eqb c Py.squote); [| reflexivity].
  rewrite !andb_false_r in Hc; cbn in Hc. 
  destruct (Nat.leb 32 (Py.code c) && Nat.ltb (Py.code c) 127); discriminate.
Qed.

(** [str] of plain bytes: the bytes between [b'] and ['].  *)
Lemma str_of_bytes_plain (b : Py.bytes) :
  plain b = true ->
  Py.str_of_bytes b
  = String "b" (String Py.squote (b ++ String Py.squote EmptyString)).
Proof.
  intros H. unfold Py.str_of_bytes, Py.repr_quote.
  rewrite (mem_squote_plain b H). cbn [andb].
  rewrite (repr_body_plain b H). reflexivity.
Qed.

(** *** Counting tokens *)

Lemma isspace_printable (c : ascii) :
  printable c = true ->
  Py.isspace c = is_space c /\ Py.isspace_byte c = is_space c.
Proof.
  destruct c as [[] [] [] [] [] [] [] []]; cbv; intuition congruence.
Qed.

Lemma plain_byte_printable (c : ascii) :
  plain_byte c = true -> printable c = true.
Proof.
  unfold plain_byte, printable.
  destruct (Nat.leb 32 (Py.code c) && Nat.ltb (Py.code c) 127);
    [reflexivity | discriminate].
Qed.

Lemma plain_printable (b : Py.bytes) :
  plain b = true -> all_chars printable b = true.
Proof.
  induction b as [| c b IH]; cbn; [reflexivity |].
  intros H; apply andb_true_iff in H as [Hc Hb].
  rewrite (plain_byte_printable c Hc), (IH Hb); reflexivity.
Qed.

Lemma all_chars_app (p : ascii -> bool) (s t : string) :
  all_chars p (s ++ t) = all_chars p s && all_chars p t.
Proof.
  induction s as [| c s IH]; cbn; [reflexivity |].
  rewrite IH, andb_assoc; reflexivity.
Qed.

(** Two separators that agree on the characters of a string split it
    alike. *)
Lemma split_by_ext (f g : ascii -> bool) (s : string) :
  all_chars (fun c => Bool.eqb (f c) (g c)) s = true ->
  Py.split_by f s = Py.split_by g s.
Proof.
  induction s as [| c s IH]; cbn [all_chars Py.split_by]; [reflexivity |].
  intros H; apply andb_true_iff in H as [Hc Hs].
  apply Bool.eqb_prop in Hc. rewrite Hc, (IH Hs).
  destruct s as [| c' s']; [reflexivity |].
  cbn [all_chars] in Hs. apply andb_true_iff in Hs as [Hc' _].
  apply Bool.eqb_prop in Hc'. rewrite Hc'. reflexivity.
Qed.

Lemma all_chars_impl (p q : ascii -> bool) (s : string) :
  (forall c, p c = true -> q c = true) ->
  all_chars p s = true -> all_chars q s = true.
Proof.
  intros Hpq; induction s as [| c s IH]; cbn; [reflexivity |].
  intros H; apply andb_true_iff in H as [Hc Hs].
  rewrite (Hpq c Hc), (IH Hs); reflexivity.
Qed.

Lemma split_printable (s : string) :
  all_chars printable s = true -> Py.split s = Py.split_by is_space s.
Proof.
  intros H. apply split_by_ext.
  apply (all_chars_impl printable); [| exact H].
  intros c Hc. destruct (isspace_printable c Hc) as [-> _].
  apply Bool.eqb_reflx.
Qed.

Lemma split_bytes_printable (s : string) :
  all_chars printable s = true ->
  Py.split_by Py.isspace_byte s = Py.split_by is_space s.
Proof.
  intros H. apply split_by_ext.
  apply (all_chars_impl printable); [| exact H].
  intros c Hc. destruct (isspace_printable c Hc) as [_ ->].
  apply Bool.eqb_reflx.
Qed.

Section Tokens.

Variable sep : ascii -> bool.

Lemma split_by_cons (c : ascii) (s : string) :
  Py.split_by sep (String c s) =
  if sep c then Py.split_by sep s
  else match s with
       | EmptyString => [String c EmptyString]
       | String c' _ =>
           if sep c' then String c EmptyString :: Py.split_by sep s
           else match Py.split_by sep s with
                | t :: ts => String c t :: ts
                | [] => [String c EmptyString]
                end
       end.
Proof. reflexivity. Qed.

Lemma split_by_starts (c : ascii) (s : string) :
  sep c = false -> Py.split_by sep (String c s) <> [].
Proof.
  intros Hc. cbn [Py.split_by]. rewrite Hc.
  destruct s as [| c' s']; [discriminate |].
  destruct (sep c'); [discriminate |].
  destruct (Py.split_by sep (String c' s')); discriminate.
Qed.

(** The number of tokens when a character that is no separator comes in
    front. *)
Lemma length_split_cons (c : ascii) (s : string) :
  sep c = false ->
  List.length (Py.split_by sep (String c s)) =
  match s with
  | EmptyString => 1
  | String c' _ =>
      if sep c' then S (List.length (Py.split_by sep s))
      else List.length (Py.split_by sep s)
  end.
Proof.
  intros Hc. cbn [Py.split_by]. rewrite Hc.
  destruct s as [| c' s']; [reflexivity |].
  destruct (sep c') eqn:Hc'; [reflexivity |].
  pose proof (split_by_starts c' s' Hc') as Hne.
  destruct (Py.split_by sep (String c' s')); [congruence | reflexivity].
Qed.

(** The number of tokens when a character that is no separator comes at the
    end. *)
Lemma length_split_snoc (c : ascii) (s : string) :
  sep c = false ->
  List.length (Py.split_by sep (s ++ String c EmptyString)) =
  match s with
  | EmptyString => 1
  | String _ _ =>
      if ends_with sep s then S (List.length (Py.split_by sep s))
      else List.length (Py.split_by sep s)
  end.
Proof.
  intros Hc. induction s as [| a s IH].
  - cbn. rewrite Hc. reflexivity.
  - cbn [String.append]. destruct (sep a) eqn:Ha.
    + cbn [Py.split_by]. rewrite Ha. rewrite IH.
      destruct s as [| c' s']; cbn [ends_with]; [rewrite Ha |]; reflexivity.
    + rewrite !length_split_cons by exact Ha.
      destruct s as [| c' s'].
      * cbn [String.append ends_with]. rewrite Hc, Ha. 
        cbn. rewrite Hc. reflexivity.
      * cbn [String.append] in *. rewrite IH.
        change (ends_with sep (String a (String c' s')))
          with (ends_with sep (String c' s')).
        destruct (sep c'), (ends_with sep (String c' s')); reflexivity.
Qed.

End Tokens.

Lemma startswith_snoc (n s : string) (c : ascii) :
  Py.mem_char c n = false ->
  Py.startswith n (s ++ String c EmptyString) = Py.startswith n s.
Proof.
  revert s; induction n as [| a n IH]; intros s Hc; [reflexivity |].
  cbn [Py.mem_char] in Hc. apply orb_false_iff in Hc as [Hca Hcn].
  destruct s as [| b s]; cbn.
  - rewrite Ascii.eqb_sym, Hca. reflexivity.
  - rewrite (IH s Hcn). reflexivity.
Qed.

Lemma contains_snoc (n s : string) (c : ascii) :
  Py.mem_char c n = false ->
  Py.contains n (s ++ String c EmptyString) = Py.contains n s.
Proof.
  intros Hc. induction s as [| a s IH].
  - pose proof (startswith_snoc n EmptyString c Hc) as H.
    cbn [String.append] in H. cbn [Py.contains String.append].
    rewrite H. destruct n; reflexivity.
  - pose proof (startswith_snoc n (String a s) c Hc) as H.
    cbn [String.append] in H. cbn [Py.contains String.append].
    rewrite H, IH. reflexivity.
Qed.

(** *** The printed form of printable bytes *)

Section Printable.

(** The quote of the printed form: any character but the space. *)
Variable q : ascii.
Hypothesis q_no_space : is_space q = false.

Lemma repr_byte_printable (c : ascii) :
  printable c = true ->
  Py.repr_byte q c =
  if escaped q c then String Py.backslash (String c EmptyString)
  else String c EmptyString.
Proof.
  intros H. unfold printable in H. apply andb_true_iff in H as [H1 H2].
  apply Nat.leb_le in H1. apply Nat.ltb_lt in H2.
  unfold Py.repr_byte, escaped.
  destruct (Ascii.eqb c q || Ascii.eqb c Py.backslash); [reflexivity |].
  replace (Nat.eqb (Py.code c) 9) with false
    by (symmetry; apply Nat.eqb_neq; lia).
  replace (Nat.eqb (Py.code c) 10) with false
    by (symmetry; apply Nat.eqb_neq; lia).
  replace (Nat.eqb (Py.code c) 13) with false
    by (symmetry; apply Nat.eqb_neq; lia).
  replace (Nat.ltb (Py.code c) 32) with false
    by (symmetry; apply Nat.ltb_ge; lia).
  replace (Nat.leb 127 (Py.code c)) with false
    by (symmetry; apply Nat.leb_gt; lia).
  reflexivity.
Qed.

Lemma escaped_no_space (c : ascii) : escaped q c = true -> is_space c = false.
Proof.
  unfold escaped. intros H. apply orb_true_iff in H as [H | H];
    apply Ascii.eqb_eq in H; subst c; [exact q_no_space | reflexivity].
Qed.

Lemma repr_body_cons (c : ascii) (b : Py.bytes) :
  printable c = true ->
  Py.repr_body q (String c b) =
  if escaped q c then String Py.backslash (String c (Py.repr_body q b))
  else String c (Py.repr_body q b).
Proof.
  intros H. cbn [Py.repr_body]. rewrite (repr_byte_printable c H).
  destruct (escaped q c); reflexivity.
Qed.

Lemma repr_body_printable (b : Py.bytes) :
  all_chars printable b = true ->
  all_chars printable (Py.repr_body q b) = true.
Proof.
  induction b as [| c b IH]; [reflexivity |].
  cbn [all_chars]. intros H; apply andb_true_iff in H as [Hc Hb].
  rewrite (repr_body_cons c b Hc).
  destruct (escaped q c); cbn [all_chars]; rewrite Hc, (IH Hb); reflexivity.
Qed.

Lemma repr_body_starts (b : Py.bytes) :
  all_chars printable b = true ->
  starts_with_space (Py.repr_body q b) = starts_with_space b.
Proof.
  destruct b as [| c b]; [reflexivity |].
  cbn [all_chars]. intros H; apply andb_true_iff in H as [Hc _].
  rewrite (repr_body_cons c b Hc).
  destruct (escaped q c) eqn:E; [| reflexivity].
  cbn [starts_with_space]. rewrite (escaped_no_space c E). reflexivity.
Qed.

Lemma repr_body_empty (b : Py.bytes) :
  all_chars printable b = true ->
  nonempty (Py.repr_body q b) = nonempty b.
Proof.
  destruct b as [| c b]; [reflexivity |].
  cbn [all_chars]. intros H; apply andb_true_iff in H as [Hc _].
  rewrite (repr_body_cons c b Hc). destruct (escaped q c); reflexivity.
Qed.

Lemma repr_body_ends (b : Py.bytes) :
  all_chars printable b = true ->
  ends_with is_space (Py.repr_body q b) = ends_with is_space b.
Proof.
  induction b as [| c b IH]; [reflexivity |].
  cbn [all_chars]. intros H; apply andb_true_iff in H as [Hc Hb].
  rewrite (repr_body_cons c b Hc).
  pose proof (repr_body_empty b Hb) as Hne. specialize (IH Hb).
  destruct b as [| c' b'].
  - cbn. destruct (escaped q c) eqn:E; cbn; [| reflexivity].
    rewrite (escaped_no_space c E). reflexivity.
  - destruct (Py.repr_body q (String c' b')) as [| d R] eqn:ER;
      [discriminate |].
    destruct (escaped q c); cbn [ends_with] in *; exact IH.
Qed.

(** Escaping does not change the number of tokens. *)
Lemma repr_body_tokens (b : Py.bytes) :
  all_chars printable b = true ->
  List.length (Py.split_by is_space (Py.repr_body q b))
  = List.length (Py.split_by is_space b).
Proof.
  induction b as [| c b IH]; [reflexivity |].
  cbn [all_chars]. intros H; apply andb_true_iff in H as [Hc Hb].
  rewrite (repr_body_cons c b Hc).
  pose proof (repr_body_starts b Hb) as Hst.
  pose proof (repr_body_empty b Hb) as Hne. specialize (IH Hb).
  assert (Hraw :
    forall d, is_space d = false ->
      List.length (Py.split_by is_space (String d (Py.repr_body q b)))
      = List.length (Py.split_by is_space (String d b))).
  { intros d Hd. rewrite !length_split_cons by exact Hd.
    destruct (Py.repr_body q b) as [| d' R], b as [| c' b'];
      try discriminate; [reflexivity |].
    cbn [starts_with_space] in Hst. rewrite Hst, IH. reflexivity. }
  destruct (escaped q c) eqn:E.
  - rewrite length_split_cons by reflexivity.
    rewrite (escaped_no_space c E).
    apply Hraw. exact (escaped_no_space c E).
  - destruct (is_space c) eqn:Hsp.
    + rewrite !(split_by_cons is_space c), Hsp. exact IH.
    + apply Hraw. exact Hsp.
Qed.

(** A needle without the quote and the backslash is found in the escaped
    bytes where it is found in the bytes. *)
Lemma startswith_escaped (n : string) :
  all_chars (fun a => negb (escaped q a)) n = true ->
  forall b, all_chars printable b = true ->
  Py.startswith n (Py.repr_body q b) = Py.startswith n b.
Proof.
  induction n as [| a n IH]; intros Hn b Hb; [reflexivity |].
  cbn [all_chars] in Hn. apply andb_true_iff in Hn as [Ha Hn].
  apply negb_true_iff in Ha.
  destruct b as [| c b]; [reflexivity |].
  cbn [all_chars] in Hb. apply andb_true_iff in Hb as [Hc Hb].
  rewrite (repr_body_cons c b Hc).
  destruct (escaped q c) eqn:E; cbn [Py.startswith].
  - assert (Hac : Ascii.eqb a c = false).
    { destruct (Ascii.eqb a c) eqn:Hac; [| reflexivity].
      apply Ascii.eqb_eq in Hac; subst c. congruence. }
    assert (Hab : Ascii.eqb a Py.backslash = false).
    { unfold escaped in Ha. apply orb_false_iff in Ha as [_ Ha]. exact Ha. }
    rewrite Hac, Hab. reflexivity.
  - rewrite (IH Hn b Hb). reflexivity.
Qed.

Lemma contains_escaped (n : string) (a : ascii) :
  all_chars (fun a => negb (escaped q a)) (String a n) = true ->
  forall b, all_chars printable b = true ->
  Py.contains (String a n) (Py.repr_body q b) = Py.contains (String a n) b.
Proof.
  intros Hn b. induction b as [| c b IH]; intros Hb; [reflexivity |].
  pose proof (startswith_escaped (String a n) Hn (String c b) Hb) as Hst.
  cbn [all_chars] in Hb. apply andb_true_iff in Hb as [Hc Hb].
  specialize (IH Hb).
  rewrite (repr_body_cons c b Hc) in *.
  destruct (escaped q c) eqn:E.
  - cbn [Py.contains]. rewrite Hst, IH.
    assert (Hac : Ascii.eqb a c = false).
    { cbn [all_chars] in Hn. apply andb_true_iff in Hn as [Ha _].
      apply negb_true_iff in Ha.
      destruct (Ascii.eqb a c) eqn:Hac; [| reflexivity].
      apply Ascii.eqb_eq in Hac; subst c. congruence. }
    cbn [Py.startswith]. rewrite Hac. reflexivity.
  - cbn [Py.contains]. cbn [Py.contains] in Hst. rewrite Hst, IH.
    reflexivity.
Qed.

End Printable.

Lemma repr_quote_cases (b : Py.bytes) :
  Py.repr_quote b = Py.squote \/ Py.repr_quote b = Py.dquote.
Proof.
  unfold Py.repr_quote.
  destruct (Py.mem_char Py.squote b && negb (Py.mem_char Py.dquote b)); auto.
Qed.

(** The tokens of [str] of printable bytes that neither start nor end with
    a space are as many as the tokens of the bytes; one, when there are no
    bytes. *)
Lemma tokens_of_printable (b : Py.bytes) :
  all_chars printable b = true ->
  starts_with_space b = false ->
  ends_with_space b = false ->
  List.length (Py.split (Py.str_of_bytes b)) =
  match b with
  | EmptyString => 1
  | String _ _ => List.length (Py.split_by Py.isspace_byte b)
  end.
Proof.
  intros Hp Hs He. unfold Py.str_of_bytes.
  assert (Hq : printable (Py.repr_quote b) = true /\
               is_space (Py.repr_quote b) = false)
    by (destruct (repr_quote_cases b) as [-> | ->]; split; reflexivity).
  destruct Hq as [Hq1 Hq2]. cbv zeta.
  generalize dependent (Py.repr_quote b). intros q Hq1 Hq2.
  pose proof (repr_body_printable q b Hp) as HR.
  pose proof (repr_body_starts q Hq2 b Hp) as Hst.
  pose proof (repr_body_empty q b Hp) as Hne.
  pose proof (repr_body_ends q Hq2 b Hp) as Hen.
  pose proof (repr_body_tokens q Hq2 b Hp) as Htk.
  rewrite split_printable
    by (cbn [all_chars]; rewrite all_chars_app, HR, Hq1; cbn [all_chars];
        rewrite Hq1; reflexivity).
  rewrite (split_bytes_printable b Hp).
  rewrite (length_split_cons is_space "b") by reflexivity. rewrite Hq2.
  rewrite (length_split_cons is_space q) by exact Hq2.
  rewrite (length_split_snoc is_space q) by exact Hq2.
  unfold ends_with_space in He. rewrite Hs in Hst. rewrite He in Hen.
  destruct (Py.repr_body q b) as [| d R], b as [| c b'];
    try discriminate; cbn [String.append]; [rewrite Hq2; reflexivity |].
  cbn [starts_with_space] in Hst. rewrite Hst, Hen. exact Htk.
Qed.

(** In printable bytes, [str] brings no [error] that the bytes do not
    have. *)
Lemma error_in_str_of_printable (b : Py.bytes) :
  all_chars printable b = true ->
  Py.contains "error" (Py.str_of_bytes b) = Py.contains "error" b.
Proof.
  intros Hp. unfold Py.str_of_bytes. cbv zeta.
  destruct (repr_quote_cases b) as [-> | ->].
  - change (Py.contains "error"
              (String "b" (String Py.squote
                 (Py.repr_body Py.squote b ++ String Py.squote EmptyString))))
      with (Py.contains "error"
              (Py.repr_body Py.squote b ++ String Py.squote EmptyString)).
    rewrite contains_snoc by reflexivity.
    apply contains_escaped; [reflexivity | exact Hp].
  - change (Py.contains "error"
              (String "b" (String Py.dquote
                 (Py.repr_body Py.dquote b ++ String Py.dquote EmptyString))))
      with (Py.contains "error"
              (Py.repr_body Py.dquote b ++ String Py.dquote EmptyString)).
    rewrite contains_snoc by reflexivity.
    apply contains_escaped; [reflexivity | exact Hp].
Qed.

(** *** Where the printed form does not change the identifier *)

Section TokensAt.

Variable sep : ascii -> bool.

(** A character that is no separator, in front of one that is none
    either, joins the first token and leaves the others. *)
Lemma nth_split_cons (c c' : ascii) (s : string) (n : nat) :
  sep c = false ->
  sep c' = false ->
  nth_error (Py.split_by sep (String c (String c' s))) (S n)
  = nth_error (Py.split_by sep (String c' s)) (S n).
Proof.
  intros Hc Hc'.
  rewrite (split_by_cons sep c), Hc, Hc'.
  destruct (Py.split_by sep (String c' s)); [destruct n |]; reflexivity.
Qed.

(** A character that is no separator, at the end, joins the last token or
    makes one more: a token that was there is still there, with the
    character after it or without. *)
Lemma nth_split_snoc (q : ascii) (s : string) :
  sep q = false ->
  forall (n : nat) (tok : string),
    nth_error (Py.split_by sep s) n = Some tok ->
    nth_error (Py.split_by sep (s ++ String q EmptyString)) n = Some tok \/
    nth_error (Py.split_by sep (s ++ String q EmptyString)) n
    = Some (tok ++ String q EmptyString)%string.
Proof.
  intros Hq. induction s as [| a s IH]; intros n tok.
  - destruct n; discriminate.
  - cbn [String.append]. rewrite !(split_by_cons sep a).
    destruct (sep a) eqn:Ha; [apply IH |].
    destruct s as [| c' s'].
    + cbn [String.append]. rewrite Hq. cbn [Py.split_by]. rewrite Hq.
      destruct n as [| [| n]]; try discriminate.
      intros E; injection E as <-. right; reflexivity.
    + cbn [String.append] in *.
      destruct (sep c') eqn:Hc'.
      * destruct n as [| n]; [left; assumption |].
        cbn [nth_error]. apply IH.
      * pose proof (split_by_starts sep c' s' Hc') as Hne.
        pose proof (split_by_starts sep c' (s' ++ String q EmptyString)
                      Hc') as Hne'.
        destruct (Py.split_by sep (String c' s')) as [| t ts] eqn:E;
          [congruence |].
        destruct (Py.split_by sep (String c' (s' ++ String q EmptyString)))
          as [| t' ts'] eqn:E'; [congruence |].
        destruct n as [| n].
        -- cbn [nth_error]. intros H; injection H as <-.
           destruct (IH 0 t eq_refl) as [H | H];
             cbn [nth_error] in H; injection H as ->; auto.
        -- cbn [nth_error]. intros H. apply (IH (S n) tok H).
Qed.

End TokensAt.

Lemma split_on_nonempty (c : ascii) (s : string) : Py.split_on c s <> [].
Proof.
  destruct s as [| a s]; cbn; [discriminate |].
  destruct (Ascii.eqb a c); [discriminate |].
  destruct (Py.split_on c s); discriminate.
Qed.

(** What comes before the first separator does not depend on what comes
    after it. *)
Lemma split_on_app (c : ascii) (tok t : string) :
  Py.mem_char c tok = true ->
  nth_error (Py.split_on c (tok ++ t)) 0 = nth_error (Py.split_on c tok) 0.
Proof.
  induction tok as [| a tok IH]; [discriminate |].
  cbn [Py.mem_char String.append Py.split_on].
  rewrite Ascii.eqb_sym.
  destruct (Ascii.eqb a c); [reflexivity |].
  cbn [orb]. intros H. specialize (IH H).
  pose proof (split_on_nonempty c tok) as N1.
  pose proof (split_on_nonempty c (tok ++ t)) as N2.
  destruct (Py.split_on c tok), (Py.split_on c (tok ++ t)); try congruence.
  cbn in *. congruence.
Qed.

(** On plain bytes that do not start with a space and whose fourth token
    has a [<] in it, the code parses the identifier of the
    specification. *)
Lemma result_id_agrees (b : Py.bytes) (tok : string) :
  plain b = true ->
  starts_with_space b = false ->
  nth_error (Py.split_by Py.isspace_byte b) 3 = Some tok ->
  Py.mem_char "<" tok = true ->
  exists rid : string,
    spec_result_id b = Some rid /\ parse_result_id b = inr rid.
Proof.
  intros Hp Hs Htok Hlt.
  pose proof (plain_printable b Hp) as Hpr.
  pose proof (split_on_nonempty "<" tok) as Hne.
  destruct (Py.split_on "<" tok) as [| rid rest] eqn:Hrid; [congruence |].
  exists rid. split.
  - unfold spec_result_id. rewrite Htok, Hrid. reflexivity.
  - unfold parse_result_id, py_index.
    rewrite (str_of_bytes_plain b Hp).
    rewrite split_printable
      by (cbn [all_chars]; rewrite all_chars_app, Hpr; reflexivity).
    rewrite (split_bytes_printable b Hpr) in Htok.
    rewrite nth_split_cons by reflexivity.
    assert (E : nth_error
                  (Py.split_by is_space
                     (String Py.squote (b ++ String Py.squote EmptyString))) 3
                = nth_error
                    (Py.split_by is_space (b ++ String Py.squote EmptyString))
                    3).
    { destruct b as [| c b']; [reflexivity |].
      cbn [String.append]. apply nth_split_cons; [reflexivity | exact Hs]. }
    rewrite E.
    destruct (nth_split_snoc is_space Py.squote b eq_refl 3 tok Htok)
      as [-> | ->].
    + rewrite Hrid. reflexivity.
    + pose proof (split_on_app "<" tok (String Py.squote EmptyString) Hlt)
        as Happ.
      rewrite Hrid in Happ. cbn [nth_error] in Happ.
      destruct (Py.split_on "<" (tok ++ String Py.squote EmptyString));
        [discriminate |].
      cbn in Happ. injection Happ as ->. reflexivity.
Qed.

(** A body with no [error] in it whose printed form has one: the byte 14
    is printed backslash, x, 0, e. *)
Example error_from_escape :
  Py.contains "error" (String (ascii_of_nat 14) "rror") = false /\
  Py.contains "error" (Py.str_of_bytes (String (ascii_of_nat 14) "rror"))
  = true.
Proof. split; reflexivity. Qed.

(** ** Properties of [forecast_position] *)

Section Properties.

Context {Unit Table : Type} {astropy : Astropy Unit Table}.
Context {requests : Requests}.

Lemma host_gost : (_host ++ "/gost/")%string = "https://gaia.esac.esa.int/gost/".
Proof. reflexivity. Qed.

Lemma host_servlet :
  (_host ++ "/gost/GostServlet")%string
  = "https://gaia.esac.esa.int/gost/GostServlet".
Proof. reflexivity. Qed.

Lemma host_export :
  (_host ++ "/gost/export.jsp")%string
  = "https://gaia.esac.esa.int/gost/export.jsp".
Proof. reflexivity. Qed.

(** Every call ends in one of the ways of [ends]. *)
Lemma run_ends (svc : service) (ra dec : Quantity Unit)
    (from to : option string) (full_output : bool) :
  ends svc ra dec from to full_output
    (fst (run svc [] (forecast_position ra dec from to full_output)))
    (snd (run svc [] (forecast_position ra dec from to full_output))).
Proof.
  destruct full_output; run_all; cbn [fst snd value];
    first
      [ apply ends_ra; assumption
      | apply ends_dec; assumption
      | eapply ends_warmup; eassumption
      | eapply ends_submission; eassumption
      | eapply ends_answered; [eassumption .. | ];
        try match goal with
            | |- answered _ _ _ _ ?h [?a; ?b; ?c] _ =>
                change [a; b; c] with (h ++ [c])
            end;
        first
          [ apply answered_status; assumption
          | apply answered_marker; assumption
          | apply answered_no_id; assumption
          | eapply answered_no_cookie; eassumption
          | apply answered_no_export; assumption
          | eapply answered_no_table; eassumption
          | eapply (answered_table _ true); eassumption
          | eapply (answered_table _ false); eassumption ] ].
Qed.

Lemma answered_trace (svc : service) (full_output : bool) (s : Session)
    (r : response) (h tr : list request) (res : exn + output Table) :
  answered svc full_output s r h tr res ->
  tr = h \/ exists rq, rq_method rq = GET /\ tr = h ++ [rq].
Proof.
  intros H; destruct H; auto; right;
    (eexists (export _ _); split; reflexivity).
Qed.

(** When the second request of a call was answered with [r], the call went
    on from there as [answered] says. *)
Lemma run_answered (svc : service) (ra dec : Quantity Unit)
    (from to : option string) (full_output : bool) (r : response) :
  answer svc (fst (run svc [] (forecast_position ra dec from to full_output)))
         1 = Some (inr r) ->
  exists r0,
    svc [] warmup = inr r0 /\
    answered svc full_output
      (store_cookies (store_cookies new_session r0) r) r
      [warmup; submission ra dec from to (store_cookies new_session r0)]
      (fst (run svc [] (forecast_position ra dec from to full_output)))
      (snd (run svc [] (forecast_position ra dec from to full_output))).
Proof.
  pose proof (run_ends svc ra dec from to full_output) as H.
  destruct H as [| | | r0 e _ _ H0 H1 | r0 r1 tr res _ _ H0 H1 H2];
    try discriminate.
  - unfold answer; cbn. rewrite H1. discriminate.
  - intros Ha. exists r0. split; [exact H0 |].
    destruct (answered_trace _ _ _ _ _ _ _ H2) as [-> | [rq [_ ->]]];
      unfold answer in Ha; cbn in Ha; rewrite H1 in Ha;
      injection Ha as <-; exact H2.
Qed.

(** The requests of a call that are POSTs are the submission. *)
Lemma run_posted (svc : service) (ra dec : Quantity Unit)
    (from to : option string) (full_output : bool) (rq : request) :
  In rq (fst (run svc [] (forecast_position ra dec from to full_output))) ->
  rq_method rq = POST ->
  exists s, rq = submission ra dec from to s.
Proof.
  pose proof (run_ends svc ra dec from to full_output) as H.
  destruct H as [| | | r0 e _ _ H0 H1 | r0 r1 tr res _ _ H0 H1 H2].
  - intros [].
  - intros [].
  - intros [<- | []]; discriminate.
  - intros [<- | [<- | []]]; [discriminate |]. eauto.
  - destruct (answered_trace _ _ _ _ _ _ _ H2) as [-> | [rq' [Hget ->]]].
    + intros [<- | [<- | []]]; [discriminate |]. eauto.
    + intros [<- | [<- | [<- | []]]]; [discriminate | eauto | congruence].
Qed.

(** Once the units are angular and the warm-up is answered, the second
    request of the call is the submission. *)
Lemma run_submits (svc : service) (ra dec : Quantity Unit)
    (from to : option string) (full_output : bool) (r0 : response) :
  is_equivalent (unit ra) deg = true ->
  is_equivalent (unit dec) deg = true ->
  svc [] warmup = inr r0 ->
  nth_error (fst (run svc [] (forecast_position ra dec from to full_output)))
            1
  = Some (submission ra dec from to (store_cookies new_session r0)).
Proof.
  intros Hra Hdec Hw.
  pose proof (run_ends svc ra dec from to full_output) as H.
  destruct H as [| | e _ _ H0 | r0' e _ _ H0 H1 | r0' r1 tr res _ _ H0 H1 H2];
    try congruence.
  - rewrite Hw in H0; injection H0 as <-. reflexivity.
  - rewrite Hw in H0; injection H0 as <-.
    destruct (answered_trace _ _ _ _ _ _ _ H2) as [-> | [rq' [Hget ->]]];
      reflexivity.
Qed.

(** A call that returns has made the three requests; the identifier it
    exports, and returns with [full_output], is the session's [JSESSIONID]
    cookie, a slash, and the identifier parsed from the answer to the
    submission. *)
Lemma run_returns (svc : service) (ra dec : Quantity Unit)
    (from to : option string) (full_output : bool) (v : output Table) :
  snd (run svc [] (forecast_position ra dec from to full_output)) = inr v ->
  exists (r0 r1 r2 : response) (sid rid : string) (t : Table),
    let s0 := store_cookies new_session r0 in
    let s1 := store_cookies s0 r1 in
    let identifier := (sid ++ "/" ++ rid)%string in
    svc [] warmup = inr r0 /\
    svc [warmup] (submission ra dec from to s0) = inr r1 /\
    parse_result_id (content r1) = inr rid /\
    cookie s1 "JSESSIONID" = inr sid /\
    svc [warmup; submission ra dec from to s0] (export identifier s1)
      = inr r2 /\
    Table_read (content r2) = inr t /\
    fst (run svc [] (forecast_position ra dec from to full_output))
      = [warmup; submission ra dec from to s0; export identifier s1] /\
    v = if full_output then Full t identifier (store_cookies s1 r2)
        else Forecast t.
Proof.
  pose proof (run_ends svc ra dec from to full_output) as H.
  destruct H as [| | | | r0 r1 tr res _ _ H0 H1 H2]; try discriminate.
  destruct H2; try discriminate.
  cbn [snd]. intros Hv; injection Hv as <-.
  exists r0, r1, r2, sid, rid, t. cbv zeta. repeat split; assumption.
Qed.

(** A call whose three requests are answered, the submission with an OK
    status, no [error] and an identifier, the export with a table, returns
    it, once the session has its cookie. *)
Lemma run_succeeds (svc : service) (ra dec : Quantity Unit)
    (from to : option string) (full_output : bool)
    (r0 r1 r2 : response) (sid rid : string) (t : Table) :
  let s0 := store_cookies new_session r0 in
  let s1 := store_cookies s0 r1 in
  let identifier := (sid ++ "/" ++ rid)%string in
  is_equivalent (unit ra) deg = true ->
  is_equivalent (unit dec) deg = true ->
  svc [] warmup = inr r0 ->
  svc [warmup] (submission ra dec from to s0) = inr r1 ->
  ok r1 = true ->
  Py.contains "error" (Py.str_of_bytes (content r1)) = false ->
  parse_result_id (content r1) = inr rid ->
  cookie s1 "JSESSIONID" = inr sid ->
  svc [warmup; submission ra dec from to s0] (export identifier s1) = inr r2 ->
  Table_read (content r2) = inr t ->
  run svc [] (forecast_position ra dec from to full_output)
  = ([warmup; submission ra dec from to s0; export identifier s1],
     inr (if full_output then Full t identifier (store_cookies s1 r2)
          else Forecast t)).
Proof.
  cbv zeta. intros Hra Hdec Hw Hs Hok Herr Hid Hck He Ht.
  pose proof (run_ends svc ra dec from to full_output) as H.
  destruct (run svc [] (forecast_position ra dec from to full_output))
    as [tr res].
  cbn [fst snd] in H.
  destruct H as [| | | r0' e _ _ H0 H1 | r0' r1' tr res _ _ H0 H1 H2];
    try congruence.
  rewrite Hw in H0; injection H0 as <-.
  rewrite Hs in H1; injection H1 as <-.
  destruct H2 as [| | | | rid' sid' e' _ _ Hid' Hck' He'
                  | rid' sid' r2' e' _ _ Hid' Hck' He' Ht'
                  | rid' sid' r2' t' _ _ Hid' Hck' He' Ht'];
    try congruence;
    rewrite Hid in Hid'; injection Hid' as <-;
    rewrite Hck in Hck'; injection Hck' as <-;
    rewrite He in He'; try discriminate; injection He' as <-.
  rewrite Ht in Ht'; injection Ht' as <-. reflexivity.
Qed.

(** *** What the specification says of a call *)

(** C3.  When the submission is answered with a body that contains
    [error], the call raises and returns no table: [HTTPError] when the
    status is not OK, [AssertionError] when it is; both are the
    specification's RemoteServiceError.  The export is not requested. *)
Theorem error_marker_raises (svc : service) (ra dec : Quantity Unit)
    (from to : option string) (full_output : bool) (r : response) :
  answer svc (fst (run svc [] (forecast_position ra dec from to full_output)))
         1 = Some (inr r) ->
  Py.contains "error" (content r) = true ->
  exists e,
    snd (run svc [] (forecast_position ra dec from to full_output)) = inl e /\
    classify e = RemoteServiceError /\
    (ok r = true ->
     e = AssertionError ("An error occurred: " ++ Py.str_of_bytes (content r)))
    /\
    List.length
      (fst (run svc [] (forecast_position ra dec from to full_output))) = 2.
Proof.
  intros Ha Herr.
  destruct (run_answered _ _ _ _ _ _ _ Ha) as [r0 [_ H]].
  apply error_in_str_of_bytes in Herr.
  destruct H; try congruence.
  - eexists; repeat split. congruence.
  - eexists; repeat split.
Qed.

(** C4, amended.  When the submission is answered with an OK status and a
    body in whose printed form, which is what the code reads, there is no
    [error], and neither the body nor its printed form has a fourth
    whitespace-delimited token, the call raises [IndexError], the
    specification's ParseError, and the export is not requested. *)
Theorem missing_token_raises (svc : service) (ra dec : Quantity Unit)
    (from to : option string) (full_output : bool) (r : response) :
  answer svc (fst (run svc [] (forecast_position ra dec from to full_output)))
         1 = Some (inr r) ->
  ok r = true ->
  Py.contains "error" (Py.str_of_bytes (content r)) = false ->
  nth_error (Py.split_by Py.isspace_byte (content r)) 3 = None ->
  nth_error (Py.split (Py.str_of_bytes (content r))) 3 = None ->
  snd (run svc [] (forecast_position ra dec from to full_output))
    = inl IndexError /\
  classify IndexError = ParseError /\
  List.length
    (fst (run svc [] (forecast_position ra dec from to full_output))) = 2.
Proof.
  intros Ha Hok Herr _ Htok.
  assert (Hid : parse_result_id (content r) = inl IndexError).
  { unfold parse_result_id, py_index. rewrite Htok. reflexivity. }
  destruct (run_answered _ _ _ _ _ _ _ Ha) as [r0 [_ H]].
  destruct H; try congruence.
  replace e with IndexError by congruence. auto.
Qed.

(** C5.  In every submission of a call made without
    [observation_period_from], the [from] field is the default start; made
    without [observation_period_to], the [to] field is the default end. *)
Theorem default_period_submitted (svc : service) (ra dec : Quantity Unit)
    (from to : option string) (full_output : bool) (rq : request) :
  In rq (fst (run svc [] (forecast_position ra dec from to full_output))) ->
  rq_method rq = POST ->
  (from = None ->
   dict_get "from" (rq_data rq) = Some (PStr "2014-09-26T00:00:00")) /\
  (to = None ->
   dict_get "to" (rq_data rq) = Some (PStr "2019-06-07T00:00:00")).
Proof.
  intros Hin Hpost.
  destruct (run_posted _ _ _ _ _ _ _ Hin Hpost) as [s ->].
  split; intros ->; reflexivity.
Qed.

(** C6.  For coordinates in units equivalent to the degree, once the
    warm-up is answered the call submits one form, and its [srcra] and
    [srcdec] are the values of the coordinates converted to degrees. *)
Theorem degrees_submitted (svc : service) (ra dec : Quantity Unit)
    (from to : option string) (full_output : bool) (r0 : response) :
  is_equivalent (unit ra) deg = true ->
  is_equivalent (unit dec) deg = true ->
  svc [] warmup = inr r0 ->
  exists rq,
    nth_error
      (fst (run svc [] (forecast_position ra dec from to full_output))) 1
      = Some rq /\
    rq_method rq = POST /\
    dict_get "srcra" (rq_data rq)
      = Some (PFloat (to_value (unit ra) deg (value ra))) /\
    dict_get "srcdec" (rq_data rq)
      = Some (PFloat (to_value (unit dec) deg (value dec))) /\
    forall rq',
      In rq'
        (fst (run svc [] (forecast_position ra dec from to full_output))) ->
      rq_method rq' = POST ->
      dict_get "srcra" (rq_data rq') = dict_get "srcra" (rq_data rq) /\
      dict_get "srcdec" (rq_data rq') = dict_get "srcdec" (rq_data rq).
Proof.
  intros Hra Hdec Hw.
  eexists; split; [apply (run_submits _ _ _ _ _ _ r0); assumption |].
  do 3 (split; [reflexivity |]).
  intros rq' Hin Hpost.
  destruct (run_posted _ _ _ _ _ _ _ Hin Hpost) as [s ->].
  split; reflexivity.
Qed.

(** C7.  A call that returns, returns with [full_output] the triple of the
    table, an identifier of the form text, slash, text, and the session,
    and without it the table alone. *)
Theorem output_shape (svc : service) (ra dec : Quantity Unit)
    (from to : option string) (full_output : bool) (v : output Table) :
  snd (run svc [] (forecast_position ra dec from to full_output)) = inr v ->
  (full_output = true ->
   exists (t : Table) (sid rid : string) (s : Session),
     v = Full t (sid ++ "/" ++ rid) s) /\
  (full_output = false -> exists t : Table, v = Forecast t).
Proof.
  pose proof (run_ends svc ra dec from to full_output) as H.
  destruct H as [| | | | r0 r1 tr res _ _ H0 H1 H2]; try discriminate.
  destruct H2; try discriminate.
  cbn [snd]. intros Hv; injection Hv as <-.
  split; intros ->; repeat eexists.
Qed.

(** C8.  When the unit of [ra] or of [dec] is not equivalent to the degree,
    the call is the raising of [UnitsError], the specification's
    InvalidInput: against every service it makes no request. *)
Theorem bad_unit_raises_first (ra dec : Quantity Unit)
    (from to : option string) (full_output : bool) :
  is_equivalent (unit ra) deg = false \/
  is_equivalent (unit dec) deg = false ->
  forecast_position ra dec from to full_output = Raise UnitsError /\
  (forall svc : service,
     run svc [] (forecast_position ra dec from to full_output)
     = ([], inl UnitsError)) /\
  classify UnitsError = InvalidInput.
Proof.
  intros H.
  assert (E : forecast_position ra dec from to full_output = Raise UnitsError).
  { unfold forecast_position, check_unit.
    destruct (is_equivalent (unit ra) deg); [| reflexivity].
    destruct H as [H | H]; [discriminate |].
    rewrite H. reflexivity. }
  rewrite E. repeat split.
Qed.

(** C9.  Every POST of a call goes to the servlet with exactly the seven
    form fields, the two header flags and the empty file part, and is
    therefore encoded as multipart. *)
Theorem submission_form (svc : service) (ra dec : Quantity Unit)
    (from to : option string) (full_output : bool) (rq : request) :
  In rq (fst (run svc [] (forecast_position ra dec from to full_output))) ->
  rq_method rq = POST ->
  rq_url rq = "https://gaia.esac.esa.int/gost/GostServlet" /\
  rq_params rq = [] /\
  rq_data rq =
    [ ("serviceCode", PInt 1);
      ("srcname", PStr EmptyString);
      ("inputmode", PStr "single");
      ("srcra", PFloat (to_value (unit ra) deg (value ra)));
      ("srcdec", PFloat (to_value (unit dec) deg (value dec)));
      ("from", PStr (period from "2014-09-26T00:00:00"));
      ("to", PStr (period to "2019-06-07T00:00:00")) ] /\
  rq_headers rq = [ ("cache", "false"); ("processData", "false") ] /\
  rq_files rq = [ ("csvfilename", EmptyString) ] /\
  body_encoding rq = Multipart.
Proof.
  intros Hin Hpost.
  destruct (run_posted _ _ _ _ _ _ _ Hin Hpost) as [s ->].
  repeat split.
Qed.

(** C10.  Against the same service, a call with [full_output] and the same
    call without it make the same requests and end with the same table or
    the same exception. *)
Theorem full_output_only_shapes (svc : service) (ra dec : Quantity Unit)
    (from to : option string) :
  fst (run svc [] (forecast_position ra dec from to true)) =
  fst (run svc [] (forecast_position ra dec from to false)) /\
  table_of (snd (run svc [] (forecast_position ra dec from to true))) =
  table_of (snd (run svc [] (forecast_position ra dec from to false))).
Proof.
  run_all; split; reflexivity.
Qed.


End Properties.

(** ** The call of the script, against mocked services *)

(** C1.  The identifier the code parses is not always the fourth
    whitespace-delimited token of the raw body cut at the first [<]: the
    code splits [str] of the bytes, in which a newline is the two
    characters backslash and n and the closing quote ends the last token.
    With a newline between the first two tokens the specification's
    identifier is [12345] and the code raises [IndexError]; with no [<]
    after the fourth token the code's identifier is [12345] followed by a
    quote. *)
Theorem result_id_of_printed_bytes :
  spec_result_id Demo.body_lines = Some "12345" /\
  parse_result_id Demo.body_lines = inl IndexError /\
  (forall (sid : string) (full_output : bool),
     snd (run (Demo.mock sid Demo.body_lines Demo.csv) []
              (Demo.call full_output)) = inl IndexError) /\
  spec_result_id Demo.body_bare = Some "12345" /\
  parse_result_id Demo.body_bare
  = inr (String "1" (String "2" (String "3" (String "4" (String "5"
          (String Py.squote EmptyString)))))).
Proof.
  repeat split; intros; reflexivity.
Qed.

(** C4 as it is stated fails: the body [error] has no fourth token, and
    the call, answered with it and status 200, raises [AssertionError],
    which is the specification's RemoteServiceError and not its
    ParseError. *)
Lemma missing_token_counterexample :
  answer (Demo.mock "S" "error" Demo.csv)
    (fst (run (Demo.mock "S" "error" Demo.csv) [] (Demo.call false))) 1
  = Some (inr (mkResponse 200 "error" [])) /\
  nth_error (Py.split_by Py.isspace_byte "error") 3 = None /\
  snd (run (Demo.mock "S" "error" Demo.csv) [] (Demo.call false))
  = inl (AssertionError "An error occurred: b'error'") /\
  classify (AssertionError "An error occurred: b'error'") <> ParseError.
Proof.
  repeat split; try reflexivity. discriminate.
Qed.


Lemma error_marker_raises_witness :
  exists e,
    snd (run (Demo.mock "S" "An error occurred" Demo.csv) []
             (Demo.call false)) = inl e /\
    classify e = RemoteServiceError /\
    (ok (mkResponse 200 "An error occurred" []) = true ->
     e = AssertionError
           ("An error occurred: " ++ Py.str_of_bytes "An error occurred")) /\
    List.length
      (fst (run (Demo.mock "S" "An error occurred" Demo.csv) []
                (Demo.call false))) = 2.
Proof.
  apply (error_marker_raises (astropy := Demo.astropy)
           (requests := Demo.requests)
           (Demo.mock "S" "An error occurred" Demo.csv)
           (Demo.degrees 34) (Demo.degrees (-13)) None None false
           (mkResponse 200 "An error occurred" []));
    vm_compute; reflexivity.
Defined.

(** The same with status 500: [raise_for_status] raises before the body is
    looked at. *)
Example error_marker_with_status_500 :
  run (Demo.mock_status 500 "S" "An error occurred" Demo.csv) []
      (Demo.call false)
  = ([warmup (requests := Demo.requests);
      submission (astropy := Demo.astropy) (requests := Demo.requests)
        (Demo.degrees 34) (Demo.degrees (-13)) None None
        (mkSession [Demo.session_cookie "S"])],
     inl (HTTPError 500)).
Proof. reflexivity. Qed.

Lemma missing_token_raises_witness :
  snd (run (Demo.mock "S" Demo.body_short Demo.csv) [] (Demo.call false))
    = inl IndexError /\
  classify IndexError = ParseError /\
  List.length
    (fst (run (Demo.mock "S" Demo.body_short Demo.csv) []
              (Demo.call false))) = 2.
Proof.
  apply (missing_token_raises (astropy := Demo.astropy)
           (requests := Demo.requests)
           (Demo.mock "S" Demo.body_short Demo.csv)
           (Demo.degrees 34) (Demo.degrees (-13)) None None false
           (mkResponse 200 Demo.body_short []));
    vm_compute; reflexivity.
Defined.

(** The body [a b c ], with a space after its third token, has no fourth
    token, and the code finds one in its printed form: the closing
    quote. *)
Example closing_quote_as_token :
  nth_error (Py.split_by Py.isspace_byte "a b c ") 3 = None /\
  parse_result_id "a b c "
  = inr (String Py.squote EmptyString).
Proof. split; reflexivity. Qed.

Lemma default_period_submitted_witness :
  (@None string = None ->
   dict_get "from" (rq_data Demo.submitted)
   = Some (PStr "2014-09-26T00:00:00")) /\
  (@None string = None ->
   dict_get "to" (rq_data Demo.submitted)
   = Some (PStr "2019-06-07T00:00:00")).
Proof.
  apply (default_period_submitted (astropy := Demo.astropy)
           (requests := Demo.requests)
           (Demo.mock "S" Demo.body Demo.csv)
           (Demo.degrees 34) (Demo.degrees (-13)) None None false
           Demo.submitted).
  - vm_compute. right. left. reflexivity.
  - reflexivity.
Defined.

Lemma degrees_submitted_witness :
  exists rq,
    nth_error
      (fst (run (Demo.mock "S" Demo.body Demo.csv) []
              (forecast_position (astropy := Demo.astropy)
                 (requests := Demo.requests)
                 (mkQuantity 90 Demo.u_arcmin) (mkQuantity 2 Demo.u_hourangle)
                 None None false))) 1
      = Some rq /\
    rq_method rq = POST /\
    dict_get "srcra" (rq_data rq)
      = Some (PFloat (Demo.convert Demo.u_arcmin Demo.u_deg 90)) /\
    dict_get "srcdec" (rq_data rq)
      = Some (PFloat (Demo.convert Demo.u_hourangle Demo.u_deg 2)) /\
    forall rq',
      In rq'
        (fst (run (Demo.mock "S" Demo.body Demo.csv) []
                (forecast_position (astropy := Demo.astropy)
                   (requests := Demo.requests)
                   (mkQuantity 90 Demo.u_arcmin)
                   (mkQuantity 2 Demo.u_hourangle) None None false))) ->
      rq_method rq' = POST ->
      dict_get "srcra" (rq_data rq') = dict_get "srcra" (rq_data rq) /\
      dict_get "srcdec" (rq_data rq') = dict_get "srcdec" (rq_data rq).
Proof.
  apply (degrees_submitted (astropy := Demo.astropy)
           (requests := Demo.requests)
           (Demo.mock "S" Demo.body Demo.csv)
           (mkQuantity 90 Demo.u_arcmin) (mkQuantity 2 Demo.u_hourangle)
           None None false
           Script.landing);
    reflexivity.
Defined.

Lemma output_shape_witness :
  (true = true ->
   exists (t : Demo.table) (sid rid : string) (s : Session),
     Full (Demo.mkTable ["a"; "b"] [[Demo.CInt 1; Demo.CInt 2]])
          "S/12345" (mkSession [Demo.session_cookie "S"])
     = Full t (sid ++ "/" ++ rid) s) /\
  (true = false ->
   exists t : Demo.table,
     Full (Demo.mkTable ["a"; "b"] [[Demo.CInt 1; Demo.CInt 2]])
          "S/12345" (mkSession [Demo.session_cookie "S"])
     = Forecast t).
Proof.
  apply (output_shape (astropy := Demo.astropy)
           (requests := Demo.requests)
           (Demo.mock "S" Demo.body Demo.csv)
           (Demo.degrees 34) (Demo.degrees (-13)) None None true).
  vm_compute. reflexivity.
Defined.

Lemma bad_unit_raises_first_witness :
  forecast_position (astropy := Demo.astropy) (requests := Demo.requests)
    (mkQuantity 34 Demo.u_m) (Demo.degrees (-13)) None None false
  = Raise UnitsError /\
  (forall svc : service,
     run svc [] (forecast_position (astropy := Demo.astropy)
                   (requests := Demo.requests)
                   (mkQuantity 34 Demo.u_m) (Demo.degrees (-13))
                   None None false)
     = ([], inl UnitsError)) /\
  classify UnitsError = InvalidInput.
Proof.
  apply (bad_unit_raises_first (astropy := Demo.astropy)
           (requests := Demo.requests)
           (mkQuantity 34 Demo.u_m) (Demo.degrees (-13)) None None false).
  left. reflexivity.
Defined.

Lemma submission_form_witness :
  rq_url Demo.submitted = "https://gaia.esac.esa.int/gost/GostServlet" /\
  rq_params Demo.submitted = [] /\
  rq_data Demo.submitted =
    [ ("serviceCode", PInt 1);
      ("srcname", PStr EmptyString);
      ("inputmode", PStr "single");
      ("srcra", PFloat (Demo.convert Demo.u_deg Demo.u_deg 34));
      ("srcdec", PFloat (Demo.convert Demo.u_deg Demo.u_deg (-13)));
      ("from", PStr (period None "2014-09-26T00:00:00"));
      ("to", PStr (period None "2019-06-07T00:00:00")) ] /\
  rq_headers Demo.submitted = [ ("cache", "false"); ("processData", "false") ] /\
  rq_files Demo.submitted = [ ("csvfilename", EmptyString) ] /\
  body_encoding Demo.submitted = Multipart.
Proof.
  apply (submission_form (astropy := Demo.astropy)
           (requests := Demo.requests)
           (Demo.mock "S" Demo.body Demo.csv)
           (Demo.degrees 34) (Demo.degrees (-13)) None None false
           Demo.submitted).
  - vm_compute. right. left. reflexivity.
  - reflexivity.
Defined.

(** ** More on the text of the identifier *)

Section Pieces.

Variable sep : ascii -> bool.

(** The tokens of a split are not empty and hold no separator. *)
Lemma split_by_tokens (s : string) :
  Forall (fun t => nonempty t = true /\
                   all_chars (fun c => negb (sep c)) t = true)
         (Py.split_by sep s).
Proof.
  induction s as [| c s IH]; [constructor |].
  rewrite split_by_cons.
  destruct (sep c) eqn:Hc; [exact IH |].
  destruct s as [| c' s'].
  - repeat constructor. cbn. rewrite Hc. reflexivity.
  - destruct (sep c') eqn:Hc'.
    + constructor; [| exact IH]. split; [reflexivity |].
      cbn. rewrite Hc. reflexivity.
    + destruct (Py.split_by sep (String c' s')) as [| t ts].
      * repeat constructor. cbn. rewrite Hc. reflexivity.
      * inversion IH as [| ? ? [_ Ht] Hts]; subst.
        constructor; [| exact Hts]. split; [reflexivity |].
        cbn [all_chars]. rewrite Hc, Ht. reflexivity.
Qed.

(** The tokens of a split are made of characters of the string. *)
Lemma split_by_all (p : ascii -> bool) (s : string) :
  all_chars p s = true ->
  Forall (fun t => all_chars p t = true) (Py.split_by sep s).
Proof.
  induction s as [| c s IH]; [constructor |].
  cbn [all_chars]. intros H; apply andb_true_iff in H as [Hc Hs].
  specialize (IH Hs). rewrite split_by_cons.
  destruct (sep c); [exact IH |].
  destruct s as [| c' s'].
  - repeat constructor. cbn. rewrite Hc. reflexivity.
  - destruct (sep c').
    + constructor; [| exact IH]. cbn. rewrite Hc. reflexivity.
    + destruct (Py.split_by sep (String c' s')) as [| t ts].
      * repeat constructor. cbn. rewrite Hc. reflexivity.
      * inversion IH as [| ? ? Ht Hts]; subst.
        constructor; [| exact Hts].
        cbn [all_chars]. rewrite Hc, Ht. reflexivity.
Qed.

End Pieces.

(** What comes before the first separator holds no separator and is made
    of characters of the string. *)
Lemma split_on_head (c : ascii) (s p : string) :
  nth_error (Py.split_on c s) 0 = Some p ->
  Py.mem_char c p = false /\
  forall f : ascii -> bool, all_chars f s = true -> all_chars f p = true.
Proof.
  revert p; induction s as [| a s IH]; intros p.
  - cbn. intros H; injection H as <-. split; [reflexivity | auto].
  - cbn [Py.split_on]. destruct (Ascii.eqb a c) eqn:Hac.
    + cbn. intros H; injection H as <-. split; [reflexivity | auto].
    + pose proof (split_on_nonempty c s) as Hne.
      destruct (Py.split_on c s) as [| t ts]; [congruence |].
      cbn. intros H; injection H as <-.
      destruct (IH t eq_refl) as [Hm Hall]. split.
      * cbn. rewrite Ascii.eqb_sym, Hac, Hm. reflexivity.
      * intros f Hf. cbn [all_chars] in *.
        apply andb_true_iff in Hf as [Ha Hs].
        rewrite Ha, (Hall f Hs). reflexivity.
Qed.

Lemma repr_byte_is_printable (q c : ascii) :
  q = Py.squote \/ q = Py.dquote ->
  all_chars printable (Py.repr_byte q c) = true.
Proof.
  intros [-> | ->];
    destruct c as [[] [] [] [] [] [] [] []]; vm_compute; reflexivity.
Qed.

Lemma repr_body_is_printable (q : ascii) (b : Py.bytes) :
  q = Py.squote \/ q = Py.dquote ->
  all_chars printable (Py.repr_body q b) = true.
Proof.
  intros Hq. induction b as [| c b IH]; [reflexivity |].
  cbn [Py.repr_body]. rewrite all_chars_app, IH.
  rewrite (repr_byte_is_printable q c Hq). reflexivity.
Qed.

(** [str] of any bytes is printable ASCII. *)
Lemma str_of_bytes_printable (b : Py.bytes) :
  all_chars printable (Py.str_of_bytes b) = true.
Proof.
  unfold Py.str_of_bytes. cbv zeta.
  pose proof (repr_quote_cases b) as Hq.
  pose proof (repr_body_is_printable (Py.repr_quote b) b Hq) as HR.
  assert (Hqp : printable (Py.repr_quote b) = true)
    by (destruct Hq as [-> | ->]; reflexivity).
  cbn [all_chars]. rewrite Hqp, all_chars_app, HR. cbn [all_chars].
  rewrite Hqp. reflexivity.
Qed.

(** The only failure of the parsing is [IndexError], when [str] of the
    body has fewer than four tokens. *)
Lemma parse_result_id_fails (b : Py.bytes) (e : exn) :
  parse_result_id b = inl e ->
  e = IndexError /\ List.length (Py.split (Py.str_of_bytes b)) < 4.
Proof.
  unfold parse_result_id, py_index.
  destruct (nth_error (Py.split (Py.str_of_bytes b)) 3) as [tok |] eqn:E.
  - pose proof (split_on_nonempty "<" tok) as Hne.
    destruct (Py.split_on "<" tok); [congruence | discriminate].
  - intros H; injection H as <-. split; [reflexivity |].
    apply nth_error_None in E. lia.
Qed.

(** *** The tokens of the printed form of any bytes *)

Lemma ends_with_app (p : ascii -> bool) (w : string) (d : ascii) (s : string) :
  ends_with p (w ++ String d s) = ends_with p (String d s).
Proof.
  induction w as [| c w IH]; [reflexivity |].
  destruct w as [| c' w']; [reflexivity |].
  exact IH.
Qed.

Lemma ends_with_none (p : ascii -> bool) (w : string) :
  all_chars (fun a => negb (p a)) w = true -> ends_with p w = false.
Proof.
  induction w as [| c w IH]; [reflexivity |].
  cbn [all_chars]. intros H; apply andb_true_iff in H as [Hc Hw].
  apply negb_true_iff in Hc.
  destruct w as [| c' w']; [exact Hc | exact (IH Hw)].
Qed.

(** A word, with no separator in it, in front of a string: one token more
    when the string starts with a separator, the first token longer
    otherwise. *)
Lemma length_split_word (sep : ascii -> bool) (w s : string) :
  nonempty w = true ->
  all_chars (fun a => negb (sep a)) w = true ->
  List.length (Py.split_by sep (w ++ s)) =
  match s with
  | EmptyString => 1
  | String c' _ =>
      if sep c' then S (List.length (Py.split_by sep s))
      else List.length (Py.split_by sep s)
  end.
Proof.
  induction w as [| c w IH]; [discriminate |].
  intros _ H. cbn [all_chars] in H. apply andb_true_iff in H as [Hc Hw].
  apply negb_true_iff in Hc.
  cbn [String.append]. rewrite length_split_cons by exact Hc.
  destruct w as [| c' w']; [reflexivity |].
  cbn [String.append].
  assert (Hc' : sep c' = false).
  { cbn [all_chars] in Hw. apply andb_true_iff in Hw as [Hc' _].
    apply negb_true_iff, Hc'. }
  rewrite Hc'. apply (IH eq_refl Hw).
Qed.

Section Printed.

(** The quote of the printed form. *)
Variable q : ascii.
Hypothesis q_quote : q = Py.squote \/ q = Py.dquote.

(** A space is printed as it is; every other byte as a word without
    whitespace. *)
Lemma repr_byte_word (c : ascii) :
  if is_space c then Py.repr_byte q c = String c EmptyString
  else nonempty (Py.repr_byte q c)
       && all_chars (fun a => negb (Py.isspace a)) (Py.repr_byte q c) = true.
Proof.
  destruct q_quote as [-> | ->];
    destruct c as [[] [] [] [] [] [] [] []]; reflexivity.
Qed.

Lemma repr_body_shape (b : Py.bytes) :
  nonempty (Py.repr_body q b) = nonempty b /\
  match Py.repr_body q b with
  | EmptyString => false
  | String d _ => Py.isspace d
  end = starts_with_space b /\
  ends_with Py.isspace (Py.repr_body q b) = ends_with is_space b /\
  List.length (Py.split_by Py.isspace (Py.repr_body q b))
  = List.length (Py.split_by is_space b).
Proof.
  induction b as [| c b (Hne & Hst & Hen & Htk)]; [repeat split |].
  cbn [Py.repr_body].
  pose proof (repr_byte_word c) as Hw.
  destruct (is_space c) eqn:Hc.
  - rewrite Hw. cbn [String.append].
    assert (Hc' : Py.isspace c = true).
    { apply Ascii.eqb_eq in Hc. subst c. reflexivity. }
    repeat split.
    + cbn [starts_with_space]. rewrite Hc, Hc'. reflexivity.
    + destruct (Py.repr_body q b) as [| d R], b as [| c' b'];
        try discriminate; cbn [ends_with]; [congruence | exact Hen].
    + rewrite (split_by_cons Py.isspace c), (split_by_cons is_space c).
      rewrite Hc, Hc'. exact Htk.
  - apply andb_true_iff in Hw as [Hw1 Hw2].
    destruct (Py.repr_byte q c) as [| d w] eqn:E; [discriminate |].
    repeat split.
    + cbn [String.append starts_with_space]. rewrite Hc.
      cbn [all_chars] in Hw2. apply andb_true_iff in Hw2 as [Hd _].
      apply negb_true_iff, Hd.
    + destruct (Py.repr_body q b) as [| d' R], b as [| c' b'];
        try discriminate.
      * cbn [ends_with]. rewrite Hc.
        assert (Hnil : forall s : string, (s ++ EmptyString)%string = s)
          by (induction s as [| a s IHs]; cbn; [| rewrite IHs]; reflexivity).
        rewrite Hnil. apply ends_with_none, Hw2.
      * rewrite ends_with_app.
        change (ends_with is_space (String c (String c' b')))
          with (ends_with is_space (String c' b')).
        exact Hen.
    + rewrite (length_split_word Py.isspace (String d w)) by assumption.
      rewrite (length_split_cons is_space c) by exact Hc.
      destruct (Py.repr_body q b) as [| d' R], b as [| c' b'];
        try discriminate; [reflexivity |].
      cbn [starts_with_space] in Hst. rewrite Hst, Htk. reflexivity.
Qed.

End Printed.

(** The tokens of [str] of any bytes: one when there are no bytes;
    otherwise the tokens of the bytes between spaces, and one more for a
    space in front, and one more for a space at the end. *)
Lemma tokens_of_printed (b : Py.bytes) :
  List.length (Py.split (Py.str_of_bytes b)) =
  match b with
  | EmptyString => 1
  | String _ _ =>
      List.length (Py.split_by is_space b)
      + (if starts_with_space b then 1 else 0)
      + (if ends_with_space b then 1 else 0)
  end.
Proof.
  unfold Py.str_of_bytes, Py.split. cbv zeta.
  pose proof (repr_quote_cases b) as Hq.
  assert (Hq' : Py.isspace (Py.repr_quote b) = false)
    by (destruct Hq as [-> | ->]; reflexivity).
  generalize dependent (Py.repr_quote b). intros q Hq Hq'.
  destruct (repr_body_shape q Hq b) as (Hne & Hst & Hen & Htk).
  rewrite (length_split_cons Py.isspace "b") by reflexivity. rewrite Hq'.
  rewrite (length_split_cons Py.isspace q) by exact Hq'.
  rewrite (length_split_snoc Py.isspace q) by exact Hq'.
  unfold ends_with_space.
  destruct (Py.repr_body q b) as [| d R], b as [| c b'];
    try discriminate; cbn [String.append]; [rewrite Hq'; reflexivity |].
  rewrite Hst, Hen, Htk. cbn [starts_with_space].
  destruct (is_space c), (ends_with is_space (String c b')); lia.
Qed.

(** A body without a fourth token, by its spaces, has none in its printed
    form; so for the other whitespace of bytes, which is printed as an
    escape. *)
Lemma no_fourth_token_printed (b : Py.bytes) :
  List.length (Py.split_by is_space b)
  + (if starts_with_space b then 1 else 0)
  + (if ends_with_space b then 1 else 0) <= 3 ->
  nth_error (Py.split (Py.str_of_bytes b)) 3 = None.
Proof.
  intros H. apply nth_error_None. rewrite tokens_of_printed.
  destruct b; [lia | exact H].
Qed.
(** *** Cookies *)

Lemma dict_get_app {V : Type} (k : string) (d d' : dict V) :
  dict_get k (d ++ d') =
  match dict_get k d with
  | Some v => Some v
  | None => dict_get k d'
  end.
Proof.
  induction d as [| [k1 v1] d IH]; cbn; [reflexivity |].
  destruct (String.eqb k k1); [reflexivity | exact IH].
Qed.

Lemma same_key_name (a b : Cookie) :
  same_key a b = true -> c_name a = c_name b.
Proof.
  unfold same_key. intros H.
  apply andb_true_iff in H as [_ H]. apply String.eqb_eq, H.
Qed.

(** Setting a cookie leaves the cookies of the other names. *)
Lemma named_jar_set (name : string) (c : Cookie) (jar : list Cookie) :
  String.eqb (c_name c) name = false ->
  named name (jar_set c jar) = named name jar.
Proof.
  intros Hc. induction jar as [| c' jar IH]; cbn [jar_set named filter].
  - rewrite Hc. reflexivity.
  - destruct (same_key c c') eqn:E; cbn [filter].
    + rewrite <- (same_key_name c c' E), Hc. reflexivity.
    + fold (named name (jar_set c jar)). fold (named name jar).
      rewrite IH. reflexivity.
Qed.

(** A cookie that is set is in the jar. *)
Lemma jar_set_in (c : Cookie) (jar : list Cookie) : In c (jar_set c jar).
Proof.
  induction jar as [| c' jar IH]; cbn [jar_set]; [left; reflexivity |].
  destruct (same_key c c'); [left; reflexivity | right; exact IH].
Qed.

(** The jar after two responses is the jar after their cookies, one after
    the other. *)
Lemma cookies_after (r0 r1 : response) :
  cookies (store_cookies (store_cookies new_session r0) r1)
  = fold_left (fun jar c => jar_set c jar) (received r0 ++ received r1) [].
Proof.
  unfold store_cookies, new_session. cbn [cookies].
  rewrite fold_left_app. reflexivity.
Qed.

(** When the jar made from a list of cookies holds one cookie of a name,
    it is the last of that name in the list. *)
Lemma named_last (name : string) (l : list Cookie) (c : Cookie) :
  named name (fold_left (fun jar c => jar_set c jar) l []) = [c] ->
  dict_get name (rev (map (fun c => (c_name c, c_value c)) l))
  = Some (c_value c).
Proof.
  revert c. induction l as [| x l IH] using rev_ind; intros c.
  - discriminate.
  - rewrite fold_left_app, map_app, rev_app_distr.
    cbn [fold_left map rev app dict_get].
    destruct (String.eqb (c_name x) name) eqn:E.
    + intros H.
      assert (Hin : In x (named name
                            (jar_set x
                               (fold_left (fun jar c => jar_set c jar) l [])))).
      { apply filter_In. split; [apply jar_set_in | exact E]. }
      rewrite H in Hin. destruct Hin as [<- | []].
      rewrite String.eqb_sym, E. reflexivity.
    + rewrite (named_jar_set name x _ E). intros H.
      rewrite String.eqb_sym, E. apply IH, H.
Qed.

(** No cookie of a name in the list, none in the jar. *)
Lemma named_none (name : string) (l : list Cookie) :
  dict_get name (map (fun c => (c_name c, c_value c)) l) = None ->
  forall jar, named name jar = [] ->
  named name (fold_left (fun jar c => jar_set c jar) l jar) = [].
Proof.
  induction l as [| x l IH]; intros H jar Hjar; [exact Hjar |].
  cbn [map dict_get] in H. cbn [fold_left].
  destruct (String.eqb name (c_name x)) eqn:E; [discriminate |].
  apply IH; [exact H |].
  rewrite named_jar_set by (rewrite String.eqb_sym; exact E). exact Hjar.
Qed.

(** What the loop of [_find_no_duplicates] gives, by the cookies of the
    name in the jar. *)
Lemma find_no_duplicates_named (name : string) (jar : list Cookie)
    (toReturn : option string) :
  find_no_duplicates name jar toReturn =
  match named name jar, toReturn with
  | [], _ => inr toReturn
  | [c], None => inr (Some (c_value c))
  | _, _ =>
      inl (CookieConflictError
             ("There are multiple cookies with name, " ++ Py.repr name))
  end.
Proof.
  revert toReturn. induction jar as [| c jar IH]; intros toReturn;
    cbn [find_no_duplicates named filter]; [reflexivity |].
  fold (named name jar).
  destruct (String.eqb (c_name c) name).
  - destruct toReturn as [v |]; [destruct (named name jar); reflexivity |].
    rewrite IH. destruct (named name jar) as [| c' [| c'' l]]; reflexivity.
  - apply IH.
Qed.

(** The two ways the look-up of [JSESSIONID] fails. *)
Lemma cookie_fails (s : Session) (e : exn) :
  cookie s "JSESSIONID" = inl e ->
  e = KeyError "name='JSESSIONID', domain=None, path=None" \/
  e = CookieConflictError "There are multiple cookies with name, 'JSESSIONID'".
Proof.
  unfold cookie. rewrite find_no_duplicates_named.
  destruct (named "JSESSIONID" (cookies s)) as [| c [| c' l]].
  - intros H; injection H as <-. left; reflexivity.
  - destruct (c_value c); intros H; [| discriminate].
    injection H as <-. left; reflexivity.
  - intros H; injection H as <-. right; reflexivity.
Qed.

(** A look-up that succeeds gives the value, not empty, of the one cookie
    of the name. *)
Lemma cookie_gives (s : Session) (name v : string) :
  cookie s name = inr v ->
  nonempty v = true /\
  exists c, named name (cookies s) = [c] /\ c_value c = v.
Proof.
  unfold cookie. rewrite find_no_duplicates_named.
  destruct (named name (cookies s)) as [| c [| c' l]]; try discriminate.
  destruct (c_value c) as [| a w] eqn:E; [discriminate |].
  intros H; injection H as <-. split; [reflexivity |].
  exists c. split; [reflexivity | exact E].
Qed.

(** Without a cookie of the name in the jar the look-up raises
    [KeyError]. *)
Lemma cookie_missing (s : Session) :
  named "JSESSIONID" (cookies s) = [] ->
  cookie s "JSESSIONID"
  = inl (KeyError "name='JSESSIONID', domain=None, path=None").
Proof.
  intros H. unfold cookie. rewrite find_no_duplicates_named, H. reflexivity.
Qed.

(** The [JSESSIONID] that the call reads after the warm-up and the
    submission is the last one that the two answers set. *)
Lemma session_cookie_last (r0 r1 : response) (name sid : string) :
  cookie (store_cookies (store_cookies new_session r0) r1) name = inr sid ->
  match dict_get name (rev (set_cookies r1)) with
  | Some v => Some v
  | None => dict_get name (rev (set_cookies r0))
  end = Some sid.
Proof.
  intros H. apply cookie_gives in H as (_ & c & Hc & <-).
  rewrite cookies_after in Hc. apply named_last in Hc.
  rewrite map_app, rev_app_distr, dict_get_app in Hc. exact Hc.
Qed.

(** When neither answer set a cookie of that name, the look-up raises
    [KeyError]. *)
Lemma session_cookie_missing (r0 r1 : response) :
  dict_get "JSESSIONID" (set_cookies r0) = None ->
  dict_get "JSESSIONID" (set_cookies r1) = None ->
  cookie (store_cookies (store_cookies new_session r0) r1) "JSESSIONID"
  = inl (KeyError "name='JSESSIONID', domain=None, path=None").
Proof.
  intros H0 H1. apply cookie_missing. rewrite cookies_after.
  apply named_none; [| reflexivity].
  rewrite map_app, dict_get_app.
  unfold set_cookies in H0, H1. rewrite H0. exact H1.
Qed.

(** ** More on the run of a call *)

Section Extras.

Context {Unit Table : Type} {astropy : Astropy Unit Table}.
Context {requests : Requests}.

(** The third request of a call, when there is one, is the export for the
    cookie of the session and the identifier parsed from the answer to the
    submission. *)
Lemma run_exports (svc : service) (ra dec : Quantity Unit)
    (from to : option string) (full_output : bool) (rq : request) :
  nth_error (fst (run svc [] (forecast_position ra dec from to full_output)))
            2 = Some rq ->
  exists (r0 r1 : response) (sid rid : string),
    let s0 := store_cookies new_session r0 in
    let s1 := store_cookies s0 r1 in
    svc [] warmup = inr r0 /\
    svc [warmup] (submission ra dec from to s0) = inr r1 /\
    ok r1 = true /\
    Py.contains "error" (Py.str_of_bytes (content r1)) = false /\
    parse_result_id (content r1) = inr rid /\
    cookie s1 "JSESSIONID" = inr sid /\
    rq = export (sid ++ "/" ++ rid) s1 /\
    fst (run svc [] (forecast_position ra dec from to full_output))
    = [warmup; submission ra dec from to s0; rq] /\
    snd (run svc [] (forecast_position ra dec from to full_output))
    = match svc [warmup; submission ra dec from to s0] rq with
      | inl e => inl e
      | inr r2 =>
          match Table_read (content r2) with
          | inl e => inl e
          | inr t =>
              inr (if full_output
                   then Full t (sid ++ "/" ++ rid) (store_cookies s1 r2)
                   else Forecast t)
          end
      end.
Proof.
  pose proof (run_ends svc ra dec from to full_output) as H.
  destruct H as [| | | r0 e _ _ H0 H1 | r0 r1 tr res _ _ H0 H1 H2];
    try discriminate.
  cbn [fst snd]. intros Hn.
  destruct H2 as [| | | | rid sid e Hok Herr Hid Hck He
                  | rid sid r2 e Hok Herr Hid Hck He Ht
                  | rid sid r2 t Hok Herr Hid Hck He Ht];
    cbn [nth_error app] in Hn; try discriminate;
    injection Hn as <-;
    exists r0, r1, sid, rid; cbv zeta;
    change (sid ++ String "/" rid)%string with (sid ++ "/" ++ rid)%string;
    rewrite He, ?Ht; repeat split; assumption.
Qed.

Lemma answer_0 (svc : service) (rq : request) (tr : list request) :
  answer svc (rq :: tr) 0 = Some (svc [] rq).
Proof. reflexivity. Qed.

Lemma answer_1 (svc : service) (rq0 rq1 : request) (tr : list request) :
  answer svc (rq0 :: rq1 :: tr) 1 = Some (svc [rq0] rq1).
Proof. reflexivity. Qed.

Lemma answer_2 (svc : service) (rq0 rq1 rq2 : request) (tr : list request) :
  answer svc (rq0 :: rq1 :: rq2 :: tr) 2 = Some (svc [rq0; rq1] rq2).
Proof. reflexivity. Qed.

(** X1.  A period given to the call is submitted as it is given, whatever
    the string. *)
Theorem given_period_submitted (svc : service) (ra dec : Quantity Unit)
    (from to : option string) (full_output : bool) (rq : request) :
  In rq (fst (run svc [] (forecast_position ra dec from to full_output))) ->
  rq_method rq = POST ->
  (forall s, from = Some s ->
     dict_get "from" (rq_data rq) = Some (PStr s)) /\
  (forall s, to = Some s ->
     dict_get "to" (rq_data rq) = Some (PStr s)).
Proof.
  intros Hin Hpost.
  destruct (run_posted _ _ _ _ _ _ _ Hin Hpost) as [s ->].
  split; intros x ->; reflexivity.
Qed.

(** X2.  The requests of a call are the first ones of three: the warm-up,
    the submission, the export, in this order. *)
Theorem requests_in_order (svc : service) (ra dec : Quantity Unit)
    (from to : option string) (full_output : bool) :
  exists (s : Session) (identifier : string) (s' : Session) (n : nat),
    n <= 3 /\
    fst (run svc [] (forecast_position ra dec from to full_output))
    = firstn n [warmup; submission ra dec from to s; export identifier s'].
Proof.
  pose proof (run_ends svc ra dec from to full_output) as H.
  destruct H as [| | e _ _ H0 | r0 e _ _ H0 H1 | r0 r1 tr res _ _ H0 H1 H2].
  - exists new_session, EmptyString, new_session, 0. split; [lia | reflexivity].
  - exists new_session, EmptyString, new_session, 0. split; [lia | reflexivity].
  - exists new_session, EmptyString, new_session, 1. split; [lia | reflexivity].
  - exists (store_cookies new_session r0), EmptyString, new_session, 2.
    split; [lia | reflexivity].
  - destruct H2 as [| | | | rid sid e _ _ _ _ _
                    | rid sid r2 e _ _ _ _ _ _
                    | rid sid r2 t _ _ _ _ _ _];
      [ exists (store_cookies new_session r0), EmptyString, new_session, 2;
        split; [lia | reflexivity] .. | | | ];
      exists (store_cookies new_session r0), (sid ++ "/" ++ rid)%string,
        (store_cookies (store_cookies new_session r0) r1), 3;
      (split; [lia | reflexivity]).
Qed.

(** X3.  The answer to the warm-up is not checked: whatever its status and
    body, the submission follows, from the session whose jar has taken the
    cookies of this answer. *)
Theorem warmup_answer_not_checked (svc : service) (ra dec : Quantity Unit)
    (from to : option string) (full_output : bool) (r0 : response) :
  is_equivalent (unit ra) deg = true ->
  is_equivalent (unit dec) deg = true ->
  svc [] warmup = inr r0 ->
  nth_error
    (fst (run svc [] (forecast_position ra dec from to full_output))) 1
  = Some (submission ra dec from to (store_cookies new_session r0)).
Proof.
  intros Hra Hdec Hw. apply run_submits; assumption.
Qed.

(** X4.  When neither the warm-up nor the submission has set a cookie
    named [JSESSIONID], a call whose submission is answered well raises the
    [KeyError] of the jar and does not request the export. *)
Theorem missing_cookie_raises (svc : service) (ra dec : Quantity Unit)
    (from to : option string) (full_output : bool) (r0 r1 : response)
    (rid : string) :
  svc [] warmup = inr r0 ->
  answer svc (fst (run svc [] (forecast_position ra dec from to full_output)))
         1 = Some (inr r1) ->
  ok r1 = true ->
  Py.contains "error" (Py.str_of_bytes (content r1)) = false ->
  parse_result_id (content r1) = inr rid ->
  dict_get "JSESSIONID" (set_cookies r0) = None ->
  dict_get "JSESSIONID" (set_cookies r1) = None ->
  snd (run svc [] (forecast_position ra dec from to full_output))
    = inl (KeyError "name='JSESSIONID', domain=None, path=None") /\
  List.length
    (fst (run svc [] (forecast_position ra dec from to full_output))) = 2.
Proof.
  intros Hw Ha Hok Herr Hid H0 H1.
  destruct (run_answered _ _ _ _ _ _ _ Ha) as [r0' [Hw' H]].
  rewrite Hw in Hw'; injection Hw' as <-.
  pose proof (session_cookie_missing r0 r1 H0 H1) as Hck.
  destruct H; try congruence.
  replace e with (KeyError "name='JSESSIONID', domain=None, path=None")
    by congruence.
  auto.
Qed.

(** X5.  The status of the answer to the export is not checked: the call
    ends with what reading its content as a table gives. *)
Theorem export_status_not_checked (svc : service) (ra dec : Quantity Unit)
    (from to : option string) (full_output : bool) (r2 : response) :
  answer svc (fst (run svc [] (forecast_position ra dec from to full_output)))
         2 = Some (inr r2) ->
  table_of (snd (run svc [] (forecast_position ra dec from to full_output)))
  = Table_read (content r2).
Proof.
  intros Ha.
  destruct (nth_error
              (fst (run svc [] (forecast_position ra dec from to full_output)))
              2) as [rq |] eqn:Hn;
    [| unfold answer in Ha; rewrite Hn in Ha; discriminate].
  destruct (run_exports _ _ _ _ _ _ _ Hn)
    as (r0 & r1 & sid & rid & _ & _ & _ & _ & _ & _ & _ & Htr & Hres).
  rewrite Htr, answer_2 in Ha. injection Ha as Ha.
  rewrite Hres, Ha.
  destruct (Table_read (content r2)); [reflexivity |].
  destruct full_output; reflexivity.
Qed.

(** X6.  A submission answered with a status from 400 to 599 makes the
    call raise [HTTPError] with this status, whatever the body, and the
    export is not requested. *)
Theorem http_error_raises (svc : service) (ra dec : Quantity Unit)
    (from to : option string) (full_output : bool) (r : response) :
  answer svc (fst (run svc [] (forecast_position ra dec from to full_output)))
         1 = Some (inr r) ->
  (400 <= status_code r < 600)%Z ->
  snd (run svc [] (forecast_position ra dec from to full_output))
    = inl (HTTPError (status_code r)) /\
  List.length
    (fst (run svc [] (forecast_position ra dec from to full_output))) = 2.
Proof.
  intros Ha [Hlo Hhi].
  assert (Hok : ok r = false).
  { unfold ok. apply Z.leb_le in Hlo. apply Z.ltb_lt in Hhi.
    rewrite Hlo, Hhi. reflexivity. }
  destruct (run_answered _ _ _ _ _ _ _ Ha) as [r0 [_ H]].
  destruct H; try congruence. auto.
Qed.

(** X7.  A submission answered with an OK status and a body of printable
    ASCII bytes without [error] passes the check of the marker: the call
    ends with [IndexError], or with the [KeyError] or the
    [CookieConflictError] of the jar, or requests the export. *)
Theorem no_marker_passes (svc : service) (ra dec : Quantity Unit)
    (from to : option string) (full_output : bool) (r : response) :
  answer svc (fst (run svc [] (forecast_position ra dec from to full_output)))
         1 = Some (inr r) ->
  ok r = true ->
  all_chars printable (content r) = true ->
  Py.contains "error" (content r) = false ->
  snd (run svc [] (forecast_position ra dec from to full_output))
    = inl IndexError \/
  snd (run svc [] (forecast_position ra dec from to full_output))
    = inl (KeyError "name='JSESSIONID', domain=None, path=None") \/
  snd (run svc [] (forecast_position ra dec from to full_output))
    = inl (CookieConflictError
             "There are multiple cookies with name, 'JSESSIONID'") \/
  List.length
    (fst (run svc [] (forecast_position ra dec from to full_output))) = 3.
Proof.
  intros Ha Hok Hp Herr.
  rewrite <- (error_in_str_of_printable _ Hp) in Herr.
  destruct (run_answered _ _ _ _ _ _ _ Ha) as [r0 [_ H]].
  destruct H as [| | e _ _ Hid | rid e _ _ _ Hck | | |]; try congruence; auto.
  - left. destruct (parse_result_id_fails _ _ Hid) as [-> _]. reflexivity.
  - destruct (cookie_fails _ _ Hck) as [-> | ->]; auto.
Qed.

(** X8.  The identifier parsed from a body, whatever the bytes, holds no
    [<], no whitespace, and only printable ASCII. *)
Theorem result_id_clean (body : Py.bytes) (rid : string) :
  parse_result_id body = inr rid ->
  Py.mem_char "<" rid = false /\
  all_chars (fun c => negb (Py.isspace c)) rid = true /\
  all_chars printable rid = true.
Proof.
  unfold parse_result_id, py_index.
  destruct (nth_error (Py.split (Py.str_of_bytes body)) 3) as [tok |] eqn:E;
    [| discriminate].
  destruct (nth_error (Py.split_on "<" tok) 0) as [p |] eqn:Ep;
    [| discriminate].
  intros H; injection H as <-.
  destruct (split_on_head "<" tok p Ep) as [Hm Hall].
  apply nth_error_In in E.
  pose proof (split_by_tokens Py.isspace (Py.str_of_bytes body)) as Ht.
  pose proof (split_by_all Py.isspace printable (Py.str_of_bytes body)
                (str_of_bytes_printable body)) as Hpr.
  rewrite Forall_forall in Ht, Hpr.
  destruct (Ht tok E) as [_ Hns].
  repeat split; [exact Hm | apply Hall; exact Hns | apply Hall; auto].
Qed.

Lemma Table_read_fails (b : Py.bytes) (e : exn) :
  Table_read b = inl e -> e = TableReadError.
Proof.
  unfold Table_read. destruct (Table_read_csv b); [discriminate |].
  intros H; injection H as <-; reflexivity.
Qed.

Lemma not_ok_status (r : response) :
  ok r = false -> (400 <= status_code r < 600)%Z.
Proof.
  unfold ok. intros H. apply negb_false_iff, andb_true_iff in H as [H1 H2].
  apply Z.leb_le in H1. apply Z.ltb_lt in H2. lia.
Qed.

(** X9.  On a body of printable bytes without quote or backslash that does
    not start with a space, has no [error], and whose fourth token has a
    [<], a call answered with an OK status raises the [KeyError] or the
    [CookieConflictError] of the jar, or requests the export of the
    cookie, which is not empty, a slash, and the fourth token up to its
    first [<]. *)
Theorem export_of_fourth_token (svc : service) (ra dec : Quantity Unit)
    (from to : option string) (full_output : bool) (r : response)
    (tok : string) :
  answer svc (fst (run svc [] (forecast_position ra dec from to full_output)))
         1 = Some (inr r) ->
  ok r = true ->
  plain (content r) = true ->
  Py.contains "error" (content r) = false ->
  starts_with_space (content r) = false ->
  nth_error (Py.split_by Py.isspace_byte (content r)) 3 = Some tok ->
  Py.mem_char "<" tok = true ->
  exists rid : string,
    nth_error (Py.split_on "<" tok) 0 = Some rid /\
    (((snd (run svc [] (forecast_position ra dec from to full_output))
         = inl (KeyError "name='JSESSIONID', domain=None, path=None") \/
       snd (run svc [] (forecast_position ra dec from to full_output))
         = inl (CookieConflictError
                  "There are multiple cookies with name, 'JSESSIONID'")) /\
      List.length
        (fst (run svc [] (forecast_position ra dec from to full_output))) = 2)
     \/
     exists (sid : string) (rq : request),
       nonempty sid = true /\
       nth_error
         (fst (run svc [] (forecast_position ra dec from to full_output))) 2
       = Some rq /\
       rq_method rq = GET /\
       rq_url rq = "https://gaia.esac.esa.int/gost/export.jsp" /\
       rq_params rq = [("id", (sid ++ "/" ++ rid)%string); ("format", "csv")]).
Proof.
  intros Ha Hok Hp Herr Hs Htok Hlt.
  destruct (result_id_agrees _ _ Hp Hs Htok Hlt) as [rid [Hspec Hid]].
  exists rid. split.
  { unfold spec_result_id in Hspec. rewrite Htok in Hspec. exact Hspec. }
  rewrite <- (error_in_str_of_printable _ (plain_printable _ Hp)) in Herr.
  destruct (run_answered _ _ _ _ _ _ _ Ha) as [r0 [_ H]].
  destruct H as [| | | rid' e _ _ _ Hck
                 | rid' sid e _ _ Hid' Hck _
                 | rid' sid r2 e _ _ Hid' Hck _ _
                 | rid' sid r2 t _ _ Hid' Hck _ _];
    try congruence.
  - left. destruct (cookie_fails _ _ Hck) as [-> | ->]; auto.
  - right. rewrite Hid in Hid'; injection Hid' as <-.
    exists sid. eexists. split; [exact (proj1 (cookie_gives _ _ _ Hck)) |].
    split; [reflexivity |]. repeat split.
  - right. rewrite Hid in Hid'; injection Hid' as <-.
    exists sid. eexists. split; [exact (proj1 (cookie_gives _ _ _ Hck)) |].
    split; [reflexivity |]. repeat split.
  - right. rewrite Hid in Hid'; injection Hid' as <-.
    exists sid. eexists. split; [exact (proj1 (cookie_gives _ _ _ Hck)) |].
    split; [reflexivity |]. repeat split.
Qed.

(** X10.  The exceptions a call can end with: [UnitsError]; what the
    transport raised for one of its requests; [HTTPError] with the status
    of the answer to the submission, from 400 to 599; [AssertionError]
    with the printed body of that answer; [IndexError]; the [KeyError] and
    the [CookieConflictError] of the jar for [JSESSIONID]; the failure to
    read the table. *)
Theorem exceptions_of_a_call (svc : service) (ra dec : Quantity Unit)
    (from to : option string) (full_output : bool) (e : exn) :
  snd (run svc [] (forecast_position ra dec from to full_output)) = inl e ->
  e = UnitsError \/
  (exists n,
     answer svc
       (fst (run svc [] (forecast_position ra dec from to full_output))) n
     = Some (inl e)) \/
  (exists r,
     answer svc
       (fst (run svc [] (forecast_position ra dec from to full_output))) 1
     = Some (inr r) /\
     ((400 <= status_code r < 600)%Z /\ e = HTTPError (status_code r) \/
      e = AssertionError
            ("An error occurred: " ++ Py.str_of_bytes (content r)))) \/
  e = IndexError \/
  e = KeyError "name='JSESSIONID', domain=None, path=None" \/
  e = CookieConflictError
        "There are multiple cookies with name, 'JSESSIONID'" \/
  e = TableReadError.
Proof.
  pose proof (run_ends svc ra dec from to full_output) as H.
  destruct H as [| | e0 _ _ H0 | r0 e0 _ _ H0 H1 | r0 r1 tr res _ _ H0 H1 H2];
    cbn [fst snd]; intros He; try (injection He as <-).
  - auto.
  - auto.
  - right; left. exists 0. rewrite answer_0, H0. reflexivity.
  - right; left. exists 1. rewrite answer_1, H1. reflexivity.
  - destruct H2 as [Hok | Hok Herr | e1 _ _ Hid | rid e1 _ _ _ Hck
                    | rid sid e1 _ _ _ _ Hex
                    | rid sid r2 e1 _ _ _ _ _ Ht
                    | rid sid r2 t _ _ _ _ _ _];
      try (injection He as <-); try discriminate.
    + right; right; left. exists r1. rewrite answer_1, H1.
      split; [reflexivity |]. left. split; [apply not_ok_status, Hok | auto].
    + right; right; left. exists r1. rewrite answer_1, H1.
      split; [reflexivity |]. right. reflexivity.
    + destruct (parse_result_id_fails _ _ Hid) as [-> _]. auto 6.
    + destruct (cookie_fails _ _ Hck) as [-> | ->]; auto 7.
    + right; left. exists 2. cbn [app]. rewrite answer_2, Hex. reflexivity.
    + rewrite (Table_read_fails _ _ Ht). auto 8.
Qed.

(** X11.  The session a call returns with [full_output] is the one whose
    jar has taken the cookies of the three answers, in the order of the
    requests: those of the answer to the export are in it. *)
Theorem returned_session_cookies (svc : service) (ra dec : Quantity Unit)
    (from to : option string) (full_output : bool) (t : Table)
    (identifier : string) (s : Session) :
  snd (run svc [] (forecast_position ra dec from to full_output))
    = inr (Full t identifier s) ->
  exists r0 r1 r2 : response,
    answer svc
      (fst (run svc [] (forecast_position ra dec from to full_output))) 0
    = Some (inr r0) /\
    answer svc
      (fst (run svc [] (forecast_position ra dec from to full_output))) 1
    = Some (inr r1) /\
    answer svc
      (fst (run svc [] (forecast_position ra dec from to full_output))) 2
    = Some (inr r2) /\
    s = store_cookies (store_cookies (store_cookies new_session r0) r1) r2.
Proof.
  intros Hv.
  destruct (run_returns _ _ _ _ _ _ _ Hv)
    as (r0 & r1 & r2 & sid & rid & t' & H0 & H1 & _ & _ & H2 & _ & Htr & E).
  cbv zeta in *.
  exists r0, r1, r2. rewrite Htr, answer_0, answer_1, answer_2, H0, H1, H2.
  repeat split.
  destruct full_output; [| discriminate].
  injection E as _ _ ->. reflexivity.
Qed.

(** X12.  The export, when it is requested, is a GET of [export.jsp] with
    the parameters [id] and [format]: [format] is [csv], and [id] is a
    session cookie, a slash, and the identifier parsed from the answer to
    the submission; the cookie is the [JSESSIONID] that this answer set,
    or else the one the warm-up set. *)
Theorem export_request (svc : service) (ra dec : Quantity Unit)
    (from to : option string) (full_output : bool) (rq : request) :
  nth_error (fst (run svc [] (forecast_position ra dec from to full_output)))
            2 = Some rq ->
  exists (r0 r1 : response) (sid rid : string),
    answer svc
      (fst (run svc [] (forecast_position ra dec from to full_output))) 0
    = Some (inr r0) /\
    answer svc
      (fst (run svc [] (forecast_position ra dec from to full_output))) 1
    = Some (inr r1) /\
    parse_result_id (content r1) = inr rid /\
    match dict_get "JSESSIONID" (rev (set_cookies r1)) with
    | Some v => Some v
    | None => dict_get "JSESSIONID" (rev (set_cookies r0))
    end = Some sid /\
    rq_method rq = GET /\
    rq_url rq = "https://gaia.esac.esa.int/gost/export.jsp" /\
    rq_params rq = [("id", (sid ++ "/" ++ rid)%string); ("format", "csv")].
Proof.
  intros Hn.
  destruct (run_exports _ _ _ _ _ _ _ Hn)
    as (r0 & r1 & sid & rid & H0 & H1 & _ & _ & Hid & Hck & -> & Htr & _).
  exists r0, r1, sid, rid.
  rewrite Htr, answer_0, answer_1, H0, H1.
  apply session_cookie_last in Hck.
  repeat split; assumption.
Qed.

(** X14.  A call whose three requests are answered, the submission with
    an OK status, no [error] and an identifier, the export with a table,
    returns it, once the session has its cookie. *)
Theorem run_returns_when (svc : service) (ra dec : Quantity Unit)
    (from to : option string) (full_output : bool)
    (r0 r1 r2 : response) (sid rid : string) (t : Table) :
  let s0 := store_cookies new_session r0 in
  let s1 := store_cookies s0 r1 in
  let identifier := (sid ++ "/" ++ rid)%string in
  is_equivalent (unit ra) deg = true ->
  is_equivalent (unit dec) deg = true ->
  svc [] warmup = inr r0 ->
  svc [warmup] (submission ra dec from to s0) = inr r1 ->
  ok r1 = true ->
  Py.contains "error" (Py.str_of_bytes (content r1)) = false ->
  parse_result_id (content r1) = inr rid ->
  cookie s1 "JSESSIONID" = inr sid ->
  svc [warmup; submission ra dec from to s0] (export identifier s1) = inr r2 ->
  Table_read (content r2) = inr t ->
  run svc [] (forecast_position ra dec from to full_output)
  = ([warmup; submission ra dec from to s0; export identifier s1],
     inr (if full_output then Full t identifier (store_cookies s1 r2)
          else Forecast t)).
Proof.
  exact (run_succeeds svc ra dec from to full_output r0 r1 r2 sid rid t).
Qed.

End Extras.

(** ** The extra properties on scripted services *)

Lemma given_period_submitted_witness :
  (forall s, Some "soon" = Some s ->
     dict_get "from" (rq_data Script.submitted) = Some (PStr s)) /\
  (forall s, Some "later" = Some s ->
     dict_get "to" (rq_data Script.submitted) = Some (PStr s)).
Proof.
  apply (given_period_submitted (astropy := Demo.astropy)
           (requests := Demo.requests)
           (Demo.mock "S" Demo.body Demo.csv)
           (Demo.degrees 34) (Demo.degrees (-13))
           (Some "soon") (Some "later") false Script.submitted).
  - vm_compute. right. left. reflexivity.
  - reflexivity.
Defined.

Lemma warmup_answer_not_checked_witness :
  nth_error (fst (run (scripted [inr Script.landing_500]) []
                    (Demo.call false))) 1
  = Some (submission (astropy := Demo.astropy) (requests := Demo.requests)
            (Demo.degrees 34) (Demo.degrees (-13)) None None
            (store_cookies new_session Script.landing_500)).
Proof.
  apply (warmup_answer_not_checked (astropy := Demo.astropy)
           (requests := Demo.requests)
           (scripted [inr Script.landing_500])
           (Demo.degrees 34) (Demo.degrees (-13)) None None false
           Script.landing_500); reflexivity.
Defined.

Lemma missing_cookie_raises_witness :
  snd (run (scripted [inr Script.bare; inr Script.servlet]) []
         (Demo.call false))
    = inl (KeyError "name='JSESSIONID', domain=None, path=None") /\
  List.length
    (fst (run (scripted [inr Script.bare; inr Script.servlet]) []
            (Demo.call false))) = 2.
Proof.
  apply (missing_cookie_raises (astropy := Demo.astropy)
           (requests := Demo.requests)
           (scripted [inr Script.bare; inr Script.servlet])
           (Demo.degrees 34) (Demo.degrees (-13)) None None false
           Script.bare Script.servlet "12345");
    vm_compute; reflexivity.
Defined.

Lemma export_status_not_checked_witness :
  table_of
    (snd (run (scripted [inr Script.landing; inr Script.servlet;
                         inr Script.export_404]) [] (Demo.call false)))
  = Table_read (astropy := Demo.astropy) (content Script.export_404).
Proof.
  apply (export_status_not_checked (astropy := Demo.astropy)
           (requests := Demo.requests)
           (scripted [inr Script.landing; inr Script.servlet;
                      inr Script.export_404])
           (Demo.degrees 34) (Demo.degrees (-13)) None None false
           Script.export_404).
  vm_compute. reflexivity.
Defined.

Lemma http_error_raises_witness :
  snd (run (Demo.mock_status 503 "S" Demo.body Demo.csv) []
         (Demo.call false)) = inl (HTTPError 503) /\
  List.length
    (fst (run (Demo.mock_status 503 "S" Demo.body Demo.csv) []
            (Demo.call false))) = 2.
Proof.
  apply (http_error_raises (astropy := Demo.astropy)
           (requests := Demo.requests)
           (Demo.mock_status 503 "S" Demo.body Demo.csv)
           (Demo.degrees 34) (Demo.degrees (-13)) None None false
           (mkResponse 503 Demo.body [])).
  - vm_compute. reflexivity.
  - cbn. lia.
Defined.

Lemma no_marker_passes_witness :
  snd (run (Demo.mock "S" Demo.body Demo.csv) [] (Demo.call false))
    = inl IndexError \/
  snd (run (Demo.mock "S" Demo.body Demo.csv) [] (Demo.call false))
    = inl (KeyError "name='JSESSIONID', domain=None, path=None") \/
  snd (run (Demo.mock "S" Demo.body Demo.csv) [] (Demo.call false))
    = inl (CookieConflictError
             "There are multiple cookies with name, 'JSESSIONID'") \/
  List.length
    (fst (run (Demo.mock "S" Demo.body Demo.csv) [] (Demo.call false))) = 3.
Proof.
  apply (no_marker_passes (astropy := Demo.astropy)
           (requests := Demo.requests)
           (Demo.mock "S" Demo.body Demo.csv)
           (Demo.degrees 34) (Demo.degrees (-13)) None None false
           Script.servlet);
    vm_compute; reflexivity.
Defined.

Lemma result_id_clean_witness :
  Py.mem_char "<" "12345" = false /\
  all_chars (fun c => negb (Py.isspace c)) "12345" = true /\
  all_chars printable "12345" = true.
Proof.
  apply (result_id_clean Demo.body "12345"). reflexivity.
Defined.

Lemma export_of_fourth_token_witness :
  exists rid : string,
    nth_error (Py.split_on "<" "12345<br>") 0 = Some rid /\
    (((snd (run (Demo.mock "S" Demo.body Demo.csv) [] (Demo.call false))
         = inl (KeyError "name='JSESSIONID', domain=None, path=None") \/
       snd (run (Demo.mock "S" Demo.body Demo.csv) [] (Demo.call false))
         = inl (CookieConflictError
                  "There are multiple cookies with name, 'JSESSIONID'")) /\
      List.length
        (fst (run (Demo.mock "S" Demo.body Demo.csv) [] (Demo.call false)))
      = 2)
     \/
     exists (sid : string) (rq : request),
       nonempty sid = true /\
       nth_error
         (fst (run (Demo.mock "S" Demo.body Demo.csv) [] (Demo.call false))) 2
       = Some rq /\
       rq_method rq = GET /\
       rq_url rq = "https://gaia.esac.esa.int/gost/export.jsp" /\
       rq_params rq = [("id", (sid ++ "/" ++ rid)%string); ("format", "csv")]).
Proof.
  apply (export_of_fourth_token (astropy := Demo.astropy)
           (requests := Demo.requests)
           (Demo.mock "S" Demo.body Demo.csv)
           (Demo.degrees 34) (Demo.degrees (-13)) None None false
           Script.servlet "12345<br>");
    vm_compute; reflexivity.
Defined.

Lemma exceptions_of_a_call_witness :
  IndexError = UnitsError \/
  (exists n,
     answer (Demo.mock "S" "xxx" Demo.csv)
       (fst (run (Demo.mock "S" "xxx" Demo.csv) [] (Demo.call false))) n
     = Some (inl IndexError)) \/
  (exists r,
     answer (Demo.mock "S" "xxx" Demo.csv)
       (fst (run (Demo.mock "S" "xxx" Demo.csv) [] (Demo.call false))) 1
     = Some (inr r) /\
     ((400 <= status_code r < 600)%Z /\ IndexError = HTTPError (status_code r)
      \/
      IndexError = AssertionError
            ("An error occurred: " ++ Py.str_of_bytes (content r)))) \/
  IndexError = IndexError \/
  IndexError = KeyError "name='JSESSIONID', domain=None, path=None" \/
  IndexError = CookieConflictError
                 "There are multiple cookies with name, 'JSESSIONID'" \/
  IndexError = TableReadError.
Proof.
  apply (exceptions_of_a_call (astropy := Demo.astropy)
           (requests := Demo.requests)
           (Demo.mock "S" "xxx" Demo.csv)
           (Demo.degrees 34) (Demo.degrees (-13)) None None false IndexError).
  vm_compute. reflexivity.
Defined.

Lemma returned_session_cookies_witness :
  exists r0 r1 r2 : response,
    answer Script.renewing
      (fst (run Script.renewing [] (Demo.call true))) 0 = Some (inr r0) /\
    answer Script.renewing
      (fst (run Script.renewing [] (Demo.call true))) 1 = Some (inr r1) /\
    answer Script.renewing
      (fst (run Script.renewing [] (Demo.call true))) 2 = Some (inr r2) /\
    mkSession [Demo.session_cookie "T"]
    = store_cookies (store_cookies (store_cookies new_session r0) r1) r2.
Proof.
  apply (returned_session_cookies (astropy := Demo.astropy)
           (requests := Demo.requests)
           Script.renewing
           (Demo.degrees 34) (Demo.degrees (-13)) None None true
           (Demo.mkTable ["a"; "b"] [[Demo.CInt 1; Demo.CInt 2]])
           "S/12345" (mkSession [Demo.session_cookie "T"])).
  vm_compute. reflexivity.
Defined.

Lemma export_request_witness :
  exists (r0 r1 : response) (sid rid : string),
    answer (Demo.mock "S" Demo.body Demo.csv)
      (fst (run (Demo.mock "S" Demo.body Demo.csv) [] (Demo.call false))) 0
    = Some (inr r0) /\
    answer (Demo.mock "S" Demo.body Demo.csv)
      (fst (run (Demo.mock "S" Demo.body Demo.csv) [] (Demo.call false))) 1
    = Some (inr r1) /\
    parse_result_id (content r1) = inr rid /\
    match dict_get "JSESSIONID" (rev (set_cookies r1)) with
    | Some v => Some v
    | None => dict_get "JSESSIONID" (rev (set_cookies r0))
    end = Some sid /\
    rq_method Script.exported = GET /\
    rq_url Script.exported = "https://gaia.esac.esa.int/gost/export.jsp" /\
    rq_params Script.exported
    = [("id", (sid ++ "/" ++ rid)%string); ("format", "csv")].
Proof.
  apply (export_request (astropy := Demo.astropy)
           (requests := Demo.requests)
           (Demo.mock "S" Demo.body Demo.csv)
           (Demo.degrees 34) (Demo.degrees (-13)) None None false
           Script.exported).
  vm_compute. reflexivity.
Defined.

Lemma run_returns_when_witness :
  run (Demo.mock "S" Demo.body Demo.csv) [] (Demo.call true)
  = ([warmup (requests := Demo.requests);
      submission (astropy := Demo.astropy) (requests := Demo.requests)
        (Demo.degrees 34) (Demo.degrees (-13)) None None
        (store_cookies new_session Script.landing);
      export (requests := Demo.requests) "S/12345"
        (store_cookies (store_cookies new_session Script.landing)
           Script.servlet)],
     inr (Full (Demo.mkTable ["a"; "b"] [[Demo.CInt 1; Demo.CInt 2]])
            "S/12345"
            (store_cookies
               (store_cookies (store_cookies new_session Script.landing)
                  Script.servlet)
               (mkResponse 200 Demo.csv [])))).
Proof.
  apply (run_returns_when (astropy := Demo.astropy)
           (requests := Demo.requests)
           (Demo.mock "S" Demo.body Demo.csv)
           (Demo.degrees 34) (Demo.degrees (-13)) None None true
           Script.landing Script.servlet (mkResponse 200 Demo.csv [])
           "S" "12345"
           (Demo.mkTable ["a"; "b"] [[Demo.CInt 1; Demo.CInt 2]]));
    reflexivity.
Defined.

(** ** The look-up of the cookie, on scripted services *)

(** A landing page that sets the cookie to the empty value: the jar holds
    it, and the look-up raises [KeyError] as for a cookie that is not
    there. *)
Example empty_cookie_raises :
  cookies (store_cookies new_session Script.landing_empty)
  = [Demo.session_cookie EmptyString] /\
  snd (run (scripted [inr Script.landing_empty; inr Script.servlet]) []
         (Demo.call false))
  = inl (KeyError "name='JSESSIONID', domain=None, path=None") /\
  List.length
    (fst (run (scripted [inr Script.landing_empty; inr Script.servlet]) []
            (Demo.call false))) = 2.
Proof. repeat split. Qed.

(** A landing page that sets the cookie for two paths: the jar holds both,
    and the look-up raises [CookieConflictError]. *)
Example two_cookies_raise :
  List.length (cookies (store_cookies new_session Script.landing_twice)) = 2 /\
  snd (run (scripted [inr Script.landing_twice; inr Script.servlet]) []
         (Demo.call false))
  = inl (CookieConflictError
           "There are multiple cookies with name, 'JSESSIONID'") /\
  List.length
    (fst (run (scripted [inr Script.landing_twice; inr Script.servlet]) []
            (Demo.call false))) = 2.
Proof. repeat split. Qed.

(** A cookie for another path is in the jar and does not go with the
    submission, with the stand-in for the library's choice. *)
Example other_path_not_sent :
  rq_cookies
    (submission (astropy := Demo.astropy) (requests := Demo.requests)
       (Demo.degrees 34) (Demo.degrees (-13)) None None
       (mkSession [mkCookie "A" "1" "gaia.esac.esa.int" "/other";
                   Demo.session_cookie "S"]))
  = [("JSESSIONID", "S")].
Proof. reflexivity. Qed.
